(** * guidelinely: the caching client of the environmental-guidelines API

    A shallow embedding of [guidelinely/cache.py], [guidelinely/client.py]
    and [guidelinely/models.py].

    - Python values (JSON payloads, cache keys, request bodies) are the
      inductive [pyval]; a [dict] is an association list in insertion
      order, because Python dicts iterate, serialise and pickle in that
      order.
    - The process state (the [diskcache.Cache] on disk, the clock, the
      environment variable holding the API key) and the observable actions
      (cache reads, cache writes, HTTP requests) live in a [world]; code
      with effects runs in the monad [M], which keeps the state reached
      when an exception is raised, as Python does.
    - The remote service and pydantic's per-field validation are external:
      they are the [Variable]s of [Section Client]. *)

From Stdlib Require Import String Ascii ZArith List Bool Lia Permutation.
From Stdlib Require Import Floats.SpecFloat.
Import ListNotations.
Set Warnings "-register-all".
Local Open Scope string_scope.
Local Open Scope list_scope.

(* ===================================================================== *)
(** ** Python values *)
(* ===================================================================== *)

(** The values that [json.loads] produces, which are also the values the
    client builds for cache keys and request bodies.  Dict keys are
    strings: JSON objects have no others, and neither have the dicts that
    the client builds. *)
Inductive pyval : Type :=
| PNone
| PBool (b : bool)
| PInt (z : Z)
| PFloat (f : spec_float)
| PStr (s : string)
| PList (items : list pyval)
| PDict (items : list (string * pyval)).

(** A Python [dict] with string keys, in insertion order. *)
Definition pydict (V : Type) : Type := list (string * V).

(** [bool(v)]: what [if v:] and [v or w] test. *)
Definition truthy (v : pyval) : bool :=
  match v with
  | PNone => false
  | PBool b => b
  | PInt z => negb (z =? 0)%Z
  | PFloat (S754_zero _) => false
  | PFloat _ => true
  | PStr s => negb (s =? "")
  | PList [] => false
  | PList (_ :: _) => true
  | PDict [] => false
  | PDict (_ :: _) => true
  end.

(** [a or b]. *)
Definition py_or (a b : pyval) : pyval := if truthy a then a else b.

(** [d.get(k)] on a dict: the value, or [None]. *)
Fixpoint dict_lookup {V : Type} (d : pydict V) (k : string) : option V :=
  match d with
  | [] => None
  | (k', v) :: d' => if k' =? k then Some v else dict_lookup d' k
  end.

(** [d[k] = v]: replaces the value in place when the key is present,
    appends the item otherwise. *)
Fixpoint dict_set {V : Type} (d : pydict V) (k : string) (v : V) : pydict V :=
  match d with
  | [] => [(k, v)]
  | (k', v') :: d' => if k' =? k then (k', v) :: d' else (k', v') :: dict_set d' k v
  end.

(** [list(d.keys())]. *)
Definition dict_keys {V : Type} (d : pydict V) : list string := map fst d.

(** Structural equality of floats (bit patterns, not IEEE [==]). *)
Definition float_eqb (x y : spec_float) : bool :=
  match x, y with
  | S754_zero s, S754_zero t => Bool.eqb s t
  | S754_infinity s, S754_infinity t => Bool.eqb s t
  | S754_nan, S754_nan => true
  | S754_finite s m e, S754_finite t n f =>
      Bool.eqb s t && (m =? n)%positive && (e =? f)%Z
  | _, _ => false
  end.

(** Equality of values as ordered structures: dict items are compared in
    insertion order.  This is finer than Python's [==] (which ignores the
    order of dict items), and it is the identity that a pickle of the
    value has. *)
Fixpoint pyval_eqb (a b : pyval) {struct a} : bool :=
  match a, b with
  | PNone, PNone => true
  | PBool x, PBool y => Bool.eqb x y
  | PInt x, PInt y => (x =? y)%Z
  | PFloat x, PFloat y => float_eqb x y
  | PStr x, PStr y => (x =? y)%string
  | PList xs, PList ys =>
      (fix go (xs ys : list pyval) {struct xs} : bool :=
         match xs, ys with
         | [], [] => true
         | x :: xs', y :: ys' => pyval_eqb x y && go xs' ys'
         | _, _ => false
         end) xs ys
  | PDict xs, PDict ys =>
      (fix go (xs ys : list (string * pyval)) {struct xs} : bool :=
         match xs, ys with
         | [], [] => true
         | (k, x) :: xs', (l, y) :: ys' =>
             (k =? l)%string && pyval_eqb x y && go xs' ys'
         | _, _ => false
         end) xs ys
  | _, _ => false
  end.


(* ===================================================================== *)
(** ** Exceptions *)
(* ===================================================================== *)

(** Modelled from the spec: [guidelinely/exceptions.py] is not among the
    sources.  The tests ([tests/test_exceptions.py]) and the calls in
    [client.py] fix what is used here: [GuidelinelyAPIError(message,
    status_code)] keeps both arguments as attributes, and
    [GuidelinelyTimeoutError(message)] keeps its message.  The other
    constructors are the exceptions of Python, httpx, pydantic and the
    cache's storage layer that can cross the client's functions. *)
Inductive exn : Type :=
| ValueError (msg : string)
| TypeError (msg : string)
| ValidationError (model : string)
| JSONDecodeError
| AttributeError (msg : string)
| HttpxTimeoutException (msg : string)
| HttpxTransportError (msg : string)
| GuidelinelyAPIError (message : pyval) (status_code : Z)
| GuidelinelyTimeoutError (message : string)
| StorageError (msg : string).

(** [isinstance(e, httpx.TimeoutException)]. *)
Definition is_httpx_timeout (e : exn) : option string :=
  match e with
  | HttpxTimeoutException msg => Some msg
  | _ => None
  end.

(* ===================================================================== *)
(** ** The persistent cache ([diskcache.Cache]) *)
(* ===================================================================== *)

(** One row of the cache's table.  [row_expire_time] is the absolute time
    after which the row is dead; [None] is a row that never expires. *)
Record row : Type := mkRow {
  row_key : pyval;
  row_value : pyval;
  row_expire_time : option Z
}.

(** The store behind the module-level [cache = Cache(directory=...)] of
    [cache.py].  diskcache is an external library; what the client relies
    on is modelled here:
    - a key that is not a string or a number is stored as the bytes of its
      pickle, which writes dict items in insertion order and list items in
      order, so two keys name the same row exactly when they are equal as
      ordered structures ([pyval_eqb]); sharing of objects inside one key
      is not modelled;
    - a row carries an absolute expiry time, and a read ignores a row whose
      time is not after the current time;
    - a write replaces the row of its key;
    - a read or a write can fail with a storage error ([read_error],
      [write_error]: the database is unreadable, the disk is full).
    Eviction by size is left out: the store is taken to be below its size
    limit.  Time is counted in whole units of a clock ([Z]). *)
Record Cache : Type := mkCache {
  rows : list row;
  read_error : option string;
  write_error : option string
}.

(** The row is alive at time [now]. *)
Definition row_live (now : Z) (r : row) : bool :=
  match row_expire_time r with
  | None => true
  | Some t => (now <? t)%Z
  end.

(** The live row stored under [key], if any. *)
Definition find_row (rs : list row) (key : pyval) (now : Z) : option row :=
  find (fun r => pyval_eqb (row_key r) key && row_live now r) rs.

(** The rows after a write of [value] under [key]. *)
Definition put_row (rs : list row) (key value : pyval) (expire_time : option Z)
  : list row :=
  mkRow key value expire_time
    :: filter (fun r => negb (pyval_eqb (row_key r) key)) rs.

(** [cache.clear()]. *)
Definition clear_rows (c : Cache) : Cache :=
  mkCache [] (read_error c) (write_error c).

(* ===================================================================== *)
(** ** HTTP *)
(* ===================================================================== *)

(** A request as httpx sends it: the client's default headers updated
    with the headers of the call. *)
Record http_request : Type := mkRequest {
  req_method : string;
  req_url : string;
  req_params : option pyval;
  req_json : option pyval;
  req_headers : pydict string
}.

(** [response.status_code] and the body: [Some v] when the body parses as
    JSON (then [response.json()] is [v]), [None] when it does not (then
    [response.json()] raises). *)
Record http_response : Type := mkResponse {
  status_code : Z;
  json_body : option pyval
}.

(** What one HTTP exchange comes to. *)
Inductive http_outcome : Type :=
| Responded (r : http_response)
| TimedOut (msg : string)
| TransportFailed (msg : string).

(* ===================================================================== *)
(** ** The world and the monad of effects *)
(* ===================================================================== *)

(** Actions that leave the process, in the order they happen. *)
Inductive event : Type :=
| CacheGet (key : pyval)
| CacheSet (key value : pyval) (expire : option Z)
| HttpSend (req : http_request).

Record world : Type := mkWorld {
  cache : Cache;
  clock : Z;
  environ_api_key : option string;
  trace : list event
}.

(** A computation: from a world to a result or an exception, and the world
    reached.  Effects performed before an exception are kept. *)
Definition M (A : Type) : Type := world -> (exn + A) * world.

Definition ret {A : Type} (a : A) : M A := fun w => (inr a, w).

Definition raise {A : Type} (e : exn) : M A := fun w => (inl e, w).

Definition bind {A B : Type} (m : M A) (f : A -> M B) : M B :=
  fun w =>
    match m w with
    | (inr a, w') => f a w'
    | (inl e, w') => (inl e, w')
    end.

(** [try: body  except httpx.TimeoutException as e: handler(str(e))]. *)
Definition try_except_timeout {A : Type} (body : M A) (handler : string -> M A)
  : M A :=
  fun w =>
    match body w with
    | (inl e, w') =>
        match is_httpx_timeout e with
        | Some msg => handler msg w'
        | None => (inl e, w')
        end
    | ok => ok
    end.

Declare Scope py_scope.
Delimit Scope py_scope with py.
Notation "x <- m ;; k" := (bind m (fun x => k))
  (at level 61, m at next level, right associativity) : py_scope.
Notation "m ;; k" := (bind m (fun _ => k))
  (at level 61, right associativity) : py_scope.
Local Open Scope py_scope.

Definition log (e : event) (w : world) : world :=
  mkWorld (cache w) (clock w) (environ_api_key w) (trace w ++ [e]).

Definition with_cache (c : Cache) (w : world) : world :=
  mkWorld c (clock w) (environ_api_key w) (trace w).


(** What a read of [key] finds in [w]: the value of the live row of
    [key], or the default [None]. *)
Definition stored (w : world) (key : pyval) : pyval :=
  match find_row (rows (cache w)) key (clock w) with
  | Some r => row_value r
  | None => PNone
  end.

(** [cache.get(key)] of diskcache. *)
Definition Cache_get (key : pyval) : M pyval :=
  fun w =>
    let w' := log (CacheGet key) w in
    match read_error (cache w) with
    | Some msg => (inl (StorageError msg), w')
    | None => (inr (stored w key), w')
    end.

(** [cache.set(key, value, expire=expire)] of diskcache: the row expires
    [expire] units after the time of the write. *)
Definition Cache_set (key value : pyval) (expire : option Z) : M unit :=
  fun w =>
    let w' := log (CacheSet key value expire) w in
    match write_error (cache w) with
    | Some msg => (inl (StorageError msg), w')
    | None =>
        let t := option_map (fun e => (clock w + e)%Z) expire in
        let c := cache w in
        (inr tt,
         with_cache (mkCache (put_row (rows c) key value t)
                             (read_error c) (write_error c)) w')
    end.

(** The requests sent so far. *)
Fixpoint sent (tr : list event) : list http_request :=
  match tr with
  | [] => []
  | HttpSend r :: tr' => r :: sent tr'
  | _ :: tr' => sent tr'
  end.

(** The keys of the cache operations of a trace. *)
Fixpoint cache_keys (tr : list event) : list pyval :=
  match tr with
  | [] => []
  | CacheGet k :: tr' => k :: cache_keys tr'
  | CacheSet k _ _ :: tr' => k :: cache_keys tr'
  | HttpSend _ :: tr' => cache_keys tr'
  end.

(** The key of the first cache operation of a trace. *)
Definition lookup_key (tr : list event) : option pyval := hd_error (cache_keys tr).

(** The [expire] argument of each cache write of a trace. *)
Fixpoint set_expiries (tr : list event) : list (option Z) :=
  match tr with
  | [] => []
  | CacheSet _ _ e :: tr' => e :: set_expiries tr'
  | _ :: tr' => set_expiries tr'
  end.

(** The events that a run from [w] to [w'] added. *)
Definition events_since (w w' : world) : list event :=
  skipn (length (trace w)) (trace w').

(* ===================================================================== *)
(** ** [guidelinely/cache.py] *)
(* ===================================================================== *)

(** [get_cached(key_data)]. *)
Definition get_cached (key_data : pyval) : M pyval :=
  result <- Cache_get key_data ;;
  match result with
  | PNone => ret PNone
  | _ => ret result
  end.

(** The default of [ttl] in [set_cached]: [24 * 3600]. *)
Definition DEFAULT_TTL : Z := 24 * 3600.

(** [set_cached(key_data, value, ttl=24 * 3600)]; [ttl = None] is a call
    that leaves the argument out. *)
Definition set_cached (key_data value : pyval) (ttl : option Z) : M unit :=
  let ttl := match ttl with Some t => t | None => DEFAULT_TTL end in
  Cache_set key_data value (Some ttl).

(* ===================================================================== *)
(** ** [guidelinely/models.py]: the request models *)
(* ===================================================================== *)

(** [ParameterWithUnit]. *)
Record ParameterWithUnit : Type := mkParameterWithUnit {
  name : string;
  target_unit : option string
}.

Module BatchCalculateRequest.

(** [parameters: list[Union[str, ParameterWithUnit]]], [media: str],
    [context: Optional[dict[str, str]]]. *)
Record t : Type := make {
  parameters : list (string + ParameterWithUnit);
  media : string;
  context : option (pydict string)
}.

(** The [model_validator(mode="after")] of the class. *)
Definition validate_parameter_count (self : t) : exn + t :=
  if (50 <? length (parameters self))%nat
  then inl (ValueError "Maximum 50 parameters per batch request")
  else inr self.

End BatchCalculateRequest.

(* ===================================================================== *)
(** ** [guidelinely/client.py]: arguments and constants *)
(* ===================================================================== *)

Definition GUIDELINELY_API_BASE : string :=
  "https://guidelines.1681248.com/api/v1".

Definition __version__ : string := "0.1.0".

Definition USER_AGENT : string := "guidelinely-python/" ++ __version__.

(** [context: Optional[Union[dict[str, str], list[dict[str, str]]]]]:
    a single context or a list of contexts. *)
Inductive context_arg : Type :=
| ContextDict (d : pydict string)
| ContextList (l : list (pydict string)).

(** One element of [parameters: list[Union[str, dict[str, Any]]]]. *)
Inductive parameter_arg : Type :=
| ParamName (s : string)
| ParamDict (d : pydict pyval).

(** The Python value of each argument. *)
Definition str_dict_py (d : pydict string) : pyval :=
  PDict (map (fun kv => (fst kv, PStr (snd kv))) d).

Definition context_py (context : option context_arg) : pyval :=
  match context with
  | None => PNone
  | Some (ContextDict d) => str_dict_py d
  | Some (ContextList l) => PList (map str_dict_py l)
  end.

Definition opt_str_py (s : option string) : pyval :=
  match s with
  | None => PNone
  | Some s => PStr s
  end.

Definition parameter_py (p : parameter_arg) : pyval :=
  match p with
  | ParamName s => PStr s
  | ParamDict d => PDict d
  end.

Definition parameters_py (parameters : list parameter_arg) : pyval :=
  PList (map parameter_py parameters).

(** [d.update(e)]. *)
Definition dict_update {V : Type} (d e : pydict V) : pydict V :=
  fold_left (fun acc kv => dict_set acc (fst kv) (snd kv)) e d.

(** Modelled from the spec: [guidelinely/auth.py] is not among the
    sources.  The docstrings of [calculate_guidelines] and
    [calculate_batch] say of [api_key]: "Optional API key. If None, will
    use GUIDELINELY_API_KEY environment variable." *)
Definition resolved_key (api_key : option string) (w : world)
  : option string :=
  match api_key with
  | Some k => Some k
  | None => environ_api_key w
  end.

Definition get_api_key (api_key : option string) : M (option string) :=
  fun w => (inr (resolved_key api_key w), w).

(** [response.json()]. *)
Definition response_json (response : http_response) : exn + pyval :=
  match json_body response with
  | Some v => inr v
  | None => inl JSONDecodeError
  end.

(** [v.get(k)]: only a dict has the method. *)
Definition py_get (v : pyval) (k : string) : exn + pyval :=
  match v with
  | PDict d =>
      inr (match dict_lookup d k with Some x => x | None => PNone end)
  | _ => inl (AttributeError "get")
  end.

(** The message that [_handle_error] extracts: the body of its [try], and
    the default of its [except Exception]. *)
Definition error_message (response : http_response) : pyval :=
  let attempt : exn + pyval :=
    match response_json response with
    | inl e => inl e
    | inr error_body =>
        match py_get error_body "detail" with
        | inl e => inl e
        | inr detail =>
            if truthy detail then inr detail
            else
              match py_get error_body "message" with
              | inl e => inl e
              | inr message => inr (py_or message (PStr "API request failed"))
              end
        end
    end in
  match attempt with
  | inr message => message
  | inl _ => PStr "API request failed"
  end.

(** [_handle_error(response)]: always raises. *)
Definition _handle_error {A : Type} (response : http_response) : M A :=
  raise (GuidelinelyAPIError (error_message response) (status_code response)).

(** The cache key of [calculate_guidelines]. *)
Definition calculate_cache_key (parameter media : string)
    (context : option context_arg) (target_unit : option string) : pyval :=
  PDict [ ("endpoint", PStr "calculate");
          ("parameter", PStr parameter);
          ("media", PStr media);
          ("context", context_py context);
          ("target_unit", opt_str_py target_unit) ].

(** The cache key of [calculate_batch]. *)
Definition batch_cache_key (parameters : list parameter_arg) (media : string)
    (context : option context_arg) : pyval :=
  PDict [ ("endpoint", PStr "calculate/batch");
          ("parameters", parameters_py parameters);
          ("media", PStr media);
          ("context", context_py context) ].

(** The JSON body of the request of [calculate_guidelines]. *)
Definition calculate_body (parameter media : string)
    (context : option context_arg) (target_unit : option string)
  : pydict pyval :=
  let body := [ ("parameter", PStr parameter); ("media", PStr media) ] in
  let body :=
    if truthy (context_py context)
    then dict_set body "context" (context_py context) else body in
  if truthy (opt_str_py target_unit)
  then dict_set body "target_unit" (opt_str_py target_unit) else body.

(** The JSON body of the request of [calculate_batch]. *)
Definition batch_body (parameters : list parameter_arg) (media : string)
    (context : option context_arg) : pydict pyval :=
  let body := [ ("parameters", parameters_py parameters);
                ("media", PStr media) ] in
  if truthy (context_py context)
  then dict_set body "context" (context_py context) else body.

(** The headers of the call: [if key: headers["X-API-KEY"] = key]. *)
Definition request_headers (key : option string) : pydict string :=
  let headers := [ ("User-Agent", USER_AGENT) ] in
  if truthy (opt_str_py key) then dict_set headers "X-API-KEY"
                                    (match key with Some k => k | None => "" end)
  else headers.

(** The request that [calculate_guidelines] sends when [key] is the
    resolved API key, and the one that [calculate_batch] sends. *)
Definition calculate_request (parameter media : string)
    (context : option context_arg) (target_unit key : option string)
  : http_request :=
  mkRequest "POST" (GUIDELINELY_API_BASE ++ "/calculate") None
    (Some (PDict (calculate_body parameter media context target_unit)))
    (dict_update [("User-Agent", USER_AGENT)] (request_headers key)).

Definition batch_request (parameters : list parameter_arg) (media : string)
    (context : option context_arg) (key : option string) : http_request :=
  mkRequest "POST" (GUIDELINELY_API_BASE ++ "/calculate/batch") None
    (Some (PDict (batch_body parameters media context)))
    (dict_update [("User-Agent", USER_AGENT)] (request_headers key)).

(* ===================================================================== *)
(** ** Test doubles *)
(* ===================================================================== *)

(** Concrete services, validators and worlds, on which the theorems below
    are exercised. *)
Module Doubles.

(** A payload that validates as a [CalculationResponse]. *)
Definition payload_ok : pyval :=
  PDict [ ("results", PList []); ("context", PDict []);
          ("total_count", PInt 0) ].

(** A service that answers every request with 200 and [payload_ok]. *)
Definition remote_ok : list http_request -> http_request -> http_outcome :=
  fun _ _ => Responded (mkResponse 200 (Some payload_ok)).

(** A service that answers every request with 500 and a detail. *)
Definition remote_500 : list http_request -> http_request -> http_outcome :=
  fun _ _ =>
    Responded (mkResponse 500 (Some (PDict [("detail", PStr "Internal error")]))).

(** A service that answers 200 with an empty JSON object. *)
Definition remote_empty : list http_request -> http_request -> http_outcome :=
  fun _ _ => Responded (mkResponse 200 (Some (PDict []))).



(** A service that is not ready, as in [tests/test_metadata_errors.py]. *)
Definition response_503 : http_response :=
  mkResponse 503 (Some (PDict [ ("status", PStr "not_ready");
                                ("reason", PStr "Database unavailable") ])).

Definition remote_503 : list http_request -> http_request -> http_outcome :=
  fun _ _ => Responded response_503.

(** A service that lists one source with one document, and one that
    counts. *)
Definition source_ccme : pyval :=
  PDict [ ("id", PInt 1); ("name", PStr "CCME"); ("abbreviation", PStr "CCME");
          ("documents",
           PList [PDict [("id", PInt 7); ("title", PStr "Water Quality")]]) ].

Definition remote_sources : list http_request -> http_request -> http_outcome :=
  fun _ _ => Responded (mkResponse 200 (Some (PList [source_ccme]))).

Definition stats_body : pyval :=
  PDict [ ("total_parameters", PInt 120); ("total_guidelines", PInt 3400);
          ("total_sources", PInt 12); ("total_documents", PInt 40) ].

Definition remote_stats : list http_request -> http_request -> http_outcome :=
  fun _ _ => Responded (mkResponse 200 (Some stats_body)).

(** A service that answers a search with two names. *)
Definition remote_names : list http_request -> http_request -> http_outcome :=
  fun _ _ =>
    Responded (mkResponse 200 (Some (PList [PStr "Ammonia"; PStr "Ammonium"]))).

(** A service that never answers in time. *)
Definition remote_slow : list http_request -> http_request -> http_outcome :=
  fun _ _ => TimedOut "timed out".

(** Validators: every result is kept as it is; only an [int] is an int. *)
Definition keep (v : pyval) : option pyval := Some v.

Definition strict_int (v : pyval) : option Z :=
  match v with
  | PInt z => Some z
  | _ => None
  end.

(** A fresh process: an empty, healthy cache, no API key, nothing done. *)
Definition fresh : world := mkWorld (mkCache [] None None) 0 None [].

(** The same with an unreadable cache, and with an unwritable one. *)
Definition unreadable : world :=
  mkWorld (mkCache [] (Some "disk I/O error") None) 0 None [].

Definition unwritable : world :=
  mkWorld (mkCache [] None (Some "database or disk is full")) 0 None [].

(** A healthy cache that holds [value] under [key], never to expire. *)
Definition holding (key value : pyval) : world :=
  mkWorld (mkCache [mkRow key value None] None None) 0 None [].




(** [n] parameter names. *)
Definition names (n : nat) : list parameter_arg := repeat (ParamName "Copper") n.

End Doubles.

(* ===================================================================== *)
(** ** [guidelinely/client.py]: the functions *)
(* ===================================================================== *)

Section Client.

(** The remote service: what it answers to a request, given the requests
    it has received before. *)
Variable remote : list http_request -> http_request -> http_outcome.

(** pydantic's validation of one field value: of an element of
    [results: list[GuidelineResponse]], and of an [int] field. *)
Variable GuidelineResponse : Type.
Variable validate_GuidelineResponse : pyval -> option GuidelineResponse.
Variable validate_int : pyval -> option Z.

(** [CalculationResponse] of [models.py]. *)
Record CalculationResponse : Type := mkCalculationResponse {
  results : list GuidelineResponse;
  context : pydict pyval;
  total_count : Z
}.

(** [StatsResponse] of [models.py]. *)
Record StatsResponse : Type := mkStatsResponse {
  total_parameters : Z;
  total_guidelines : Z;
  total_sources : Z;
  total_documents : Z
}.

(** Validation of a [list[GuidelineResponse]] field. *)
Fixpoint validate_results (items : list pyval)
  : option (list GuidelineResponse) :=
  match items with
  | [] => Some []
  | x :: items' =>
      match validate_GuidelineResponse x, validate_results items' with
      | Some g, Some gs => Some (g :: gs)
      | _, _ => None
      end
  end.

(** [CalculationResponse( **payload )]: the payload must be a mapping
    (else the call itself is a [TypeError]); the three fields have no
    default, so each must be present and valid; other keys are ignored. *)
Definition CalculationResponse_new (payload : pyval)
  : exn + CalculationResponse :=
  match payload with
  | PDict kwargs =>
      match dict_lookup kwargs "results",
            dict_lookup kwargs "context",
            dict_lookup kwargs "total_count" with
      | Some (PList rs), Some (PDict c), Some n =>
          match validate_results rs, validate_int n with
          | Some rs', Some n' => inr (mkCalculationResponse rs' c n')
          | _, _ => inl (ValidationError "CalculationResponse")
          end
      | _, _, _ => inl (ValidationError "CalculationResponse")
      end
  | _ => inl (TypeError "argument after ** must be a mapping")
  end.

(** [StatsResponse( **payload )]. *)
Definition StatsResponse_new (payload : pyval) : exn + StatsResponse :=
  match payload with
  | PDict kwargs =>
      match dict_lookup kwargs "total_parameters",
            dict_lookup kwargs "total_guidelines",
            dict_lookup kwargs "total_sources",
            dict_lookup kwargs "total_documents" with
      | Some a, Some b, Some c, Some d =>
          match validate_int a, validate_int b,
                validate_int c, validate_int d with
          | Some a', Some b', Some c', Some d' =>
              inr (mkStatsResponse a' b' c' d')
          | _, _, _, _ => inl (ValidationError "StatsResponse")
          end
      | _, _, _, _ => inl (ValidationError "StatsResponse")
      end
  | _ => inl (TypeError "argument after ** must be a mapping")
  end.

(** A pure result, raised or returned. *)
Definition lift {A : Type} (r : exn + A) : M A :=
  match r with
  | inl e => raise e
  | inr a => ret a
  end.

(** One exchange of an [httpx.Client] whose default headers are
    [client_headers]. *)
Definition httpx_send (client_headers : pydict string)
    (method url : string) (params json : option pyval)
    (headers : pydict string) : M http_response :=
  fun w =>
    let req := mkRequest method url params json
                 (dict_update client_headers headers) in
    let w' := log (HttpSend req) w in
    match remote (sent (trace w)) req with
    | Responded r => (inr r, w')
    | TimedOut msg => (inl (HttpxTimeoutException msg), w')
    | TransportFailed msg => (inl (HttpxTransportError msg), w')
    end.

(** [client.get(url, params=params)] and
    [client.post(url, json=json, headers=headers)] inside
    [with httpx.Client(timeout=DEFAULT_TIMEOUT,
                       headers={"User-Agent": USER_AGENT}) as client]. *)
Definition client_get (url : string) (params : option pyval)
  : M http_response :=
  httpx_send [("User-Agent", USER_AGENT)] "GET" url params None [].

Definition client_post (url : string) (json : pyval)
    (headers : pydict string) : M http_response :=
  httpx_send [("User-Agent", USER_AGENT)] "POST" url None (Some json) headers.

(** [raise GuidelinelyTimeoutError(f"Request timed out: {e}") from e]. *)
Definition timed_out {A : Type} (e : string) : M A :=
  raise (GuidelinelyTimeoutError ("Request timed out: " ++ e)).

(** [if response.status_code != 200: _handle_error(response)]. *)
Definition check_status (response : http_response) : M unit :=
  if (status_code response =? 200)%Z then ret tt
  else _handle_error response.

(** [calculate_guidelines(parameter, media, context, target_unit,
    api_key)]. *)
Definition calculate_guidelines (parameter media : string)
    (context : option context_arg) (target_unit api_key : option string)
  : M CalculationResponse :=
  key <- get_api_key api_key ;;
  let cache_key := calculate_cache_key parameter media context target_unit in
  cached_response <- get_cached cache_key ;;
  if truthy cached_response
  then lift (CalculationResponse_new cached_response)
  else
    let body := calculate_body parameter media context target_unit in
    let headers := request_headers key in
    try_except_timeout
      (response <- client_post (GUIDELINELY_API_BASE ++ "/calculate")
                     (PDict body) headers ;;
       check_status response ;;
       data <- lift (response_json response) ;;
       set_cached cache_key data None ;;
       lift (CalculationResponse_new data))
      timed_out.

(** [calculate_batch(parameters, media, context, api_key)]. *)
Definition calculate_batch (parameters : list parameter_arg)
    (media : string) (context : option context_arg)
    (api_key : option string) : M CalculationResponse :=
  if (50 <? length parameters)%nat
  then raise (ValueError "Maximum 50 parameters per batch request")
  else
    key <- get_api_key api_key ;;
    let cache_key := batch_cache_key parameters media context in
    cached_response <- get_cached cache_key ;;
    if truthy cached_response
    then lift (CalculationResponse_new cached_response)
    else
      let body := batch_body parameters media context in
      let headers := request_headers key in
      try_except_timeout
        (response <- client_post (GUIDELINELY_API_BASE ++ "/calculate/batch")
                       (PDict body) headers ;;
         check_status response ;;
         data <- lift (response_json response) ;;
         set_cached cache_key data None ;;
         lift (CalculationResponse_new data))
        timed_out.

(** [health_check()]. *)
Definition health_check : M pyval :=
  try_except_timeout
    (response <- client_get (GUIDELINELY_API_BASE ++ "/health") None ;;
     check_status response ;;
     lift (response_json response))
    timed_out.

(** [readiness_check()]. *)
Definition readiness_check : M pyval :=
  try_except_timeout
    (response <- client_get (GUIDELINELY_API_BASE ++ "/ready") None ;;
     check_status response ;;
     lift (response_json response))
    timed_out.

(** [list_parameters()]. *)
Definition list_parameters : M pyval :=
  try_except_timeout
    (response <- client_get (GUIDELINELY_API_BASE ++ "/parameters") None ;;
     check_status response ;;
     lift (response_json response))
    timed_out.

(** The query of [search_parameters]: [q] always, each filter only when
    it is a non-empty list. *)
Definition str_list_py (l : option (list string)) : pyval :=
  match l with
  | None => PNone
  | Some l => PList (map PStr l)
  end.

Definition search_params (q : string)
    (media source document : option (list string)) : pydict pyval :=
  let params := [ ("q", PStr q) ] in
  let params :=
    if truthy (str_list_py media)
    then dict_set params "media" (str_list_py media) else params in
  let params :=
    if truthy (str_list_py source)
    then dict_set params "source" (str_list_py source) else params in
  if truthy (str_list_py document)
  then dict_set params "document" (str_list_py document) else params.

(** [search_parameters(q, media, source, document)]. *)
Definition search_parameters (q : string)
    (media source document : option (list string)) : M pyval :=
  try_except_timeout
    (let params := search_params q media source document in
     response <- client_get (GUIDELINELY_API_BASE ++ "/parameters/search")
                   (Some (PDict params)) ;;
     check_status response ;;
     lift (response_json response))
    timed_out.

(** [list_media()]. *)
Definition list_media : M pyval :=
  try_except_timeout
    (response <- client_get (GUIDELINELY_API_BASE ++ "/media") None ;;
     check_status response ;;
     lift (response_json response))
    timed_out.

(** [get_stats()]. *)
Definition get_stats : M StatsResponse :=
  try_except_timeout
    (response <- client_get (GUIDELINELY_API_BASE ++ "/stats") None ;;
     check_status response ;;
     data <- lift (response_json response) ;;
     lift (StatsResponse_new data))
    timed_out.

(** [SourceDocument] and [SourceResponse] of [models.py]. *)
Record SourceDocument : Type := mkSourceDocument {
  doc_id : Z;
  doc_title : string;
  doc_url : option string;
  doc_year : option Z
}.

Record SourceResponse : Type := mkSourceResponse {
  source_id : Z;
  source_name : string;
  source_abbreviation : string;
  source_documents : list SourceDocument
}.

(** Validation of a [str] field, and of fields that are [Optional] with
    default [None]: absent and [None] both give [None]. *)
Definition validate_str (v : pyval) : option string :=
  match v with
  | PStr s => Some s
  | _ => None
  end.

Definition validate_optional {A : Type} (validate : pyval -> option A)
    (v : option pyval) : option (option A) :=
  match v with
  | None => Some None
  | Some PNone => Some None
  | Some x => option_map Some (validate x)
  end.

(** Validation of a nested [SourceDocument]. *)
Definition validate_SourceDocument (v : pyval) : option SourceDocument :=
  match v with
  | PDict d =>
      match dict_lookup d "id", dict_lookup d "title" with
      | Some i, Some t =>
          match validate_int i, validate_str t,
                validate_optional validate_str (dict_lookup d "url"),
                validate_optional validate_int (dict_lookup d "year") with
          | Some i', Some t', Some u, Some y =>
              Some (mkSourceDocument i' t' u y)
          | _, _, _, _ => None
          end
      | _, _ => None
      end
  | _ => None
  end.

(** Validation of a list field, element by element. *)
Fixpoint validate_list {A : Type} (validate : pyval -> option A)
    (items : list pyval) : option (list A) :=
  match items with
  | [] => Some []
  | x :: items' =>
      match validate x, validate_list validate items' with
      | Some a, Some l => Some (a :: l)
      | _, _ => None
      end
  end.

(** [SourceResponse( **source )]. *)
Definition SourceResponse_new (source : pyval) : exn + SourceResponse :=
  match source with
  | PDict kwargs =>
      match dict_lookup kwargs "id", dict_lookup kwargs "name",
            dict_lookup kwargs "abbreviation",
            dict_lookup kwargs "documents" with
      | Some i, Some n, Some a, Some (PList ds) =>
          match validate_int i, validate_str n, validate_str a,
                validate_list validate_SourceDocument ds with
          | Some i', Some n', Some a', Some ds' =>
              inr (mkSourceResponse i' n' a' ds')
          | _, _, _, _ => inl (ValidationError "SourceResponse")
          end
      | _, _, _, _ => inl (ValidationError "SourceResponse")
      end
  | _ => inl (TypeError "argument after ** must be a mapping")
  end.

(** [for x in v]: the elements of a list, the keys of a dict, the
    characters of a string; nothing else in JSON can be iterated. *)
Definition py_iter (v : pyval) : exn + list pyval :=
  match v with
  | PList l => inr l
  | PDict d => inr (map PStr (dict_keys d))
  | PStr s => inr (map (fun c => PStr (String c "")) (list_ascii_of_string s))
  | _ => inl (TypeError "object is not iterable")
  end.

(** [[f(x) for x in items]]: stops at the first exception. *)
Fixpoint comprehension {A : Type} (f : pyval -> exn + A) (items : list pyval)
  : exn + list A :=
  match items with
  | [] => inr []
  | x :: items' =>
      match f x with
      | inl e => inl e
      | inr a =>
          match comprehension f items' with
          | inl e => inl e
          | inr l => inr (a :: l)
          end
      end
  end.

(** [list_sources()]. *)
Definition list_sources : M (list SourceResponse) :=
  try_except_timeout
    (response <- client_get (GUIDELINELY_API_BASE ++ "/sources") None ;;
     check_status response ;;
     data <- lift (response_json response) ;;
     sources <- lift (py_iter data) ;;
     lift (comprehension SourceResponse_new sources))
    timed_out.

(** The run of either calculation function after a cache miss, spelled
    out: [w] is the world before the lookup of [key], [req] the request. *)
Definition fetch_outcome (key : pyval) (req : http_request) (w : world)
  : (exn + CalculationResponse) * world :=
  let w1 := log (CacheGet key) w in
  let w2 := log (HttpSend req) w1 in
  match remote (sent (trace w)) req with
  | TimedOut msg =>
      (inl (GuidelinelyTimeoutError ("Request timed out: " ++ msg)), w2)
  | TransportFailed msg => (inl (HttpxTransportError msg), w2)
  | Responded r =>
      if (status_code r =? 200)%Z then
        match json_body r with
        | None => (inl JSONDecodeError, w2)
        | Some data =>
            let w3 := log (CacheSet key data (Some DEFAULT_TTL)) w2 in
            match write_error (cache w) with
            | Some msg => (inl (StorageError msg), w3)
            | None =>
                (CalculationResponse_new data,
                 with_cache
                   (mkCache
                      (put_row (rows (cache w)) key data
                         (Some (clock w + DEFAULT_TTL)%Z))
                      (read_error (cache w)) (write_error (cache w)))
                   w3)
            end
        end
      else (inl (GuidelinelyAPIError (error_message r) (status_code r)), w2)
  end.

(** The run of a metadata function, spelled out: one GET, whose JSON
    body, when the status is 200, goes through [decode]. *)
Definition get_request (url : string) (params : option pyval) : http_request :=
  mkRequest "GET" url params None [("User-Agent", USER_AGENT)].

Definition get_outcome {A : Type} (url : string) (params : option pyval)
    (decode : pyval -> exn + A) (w : world) : (exn + A) * world :=
  let w' := log (HttpSend (get_request url params)) w in
  match remote (sent (trace w)) (get_request url params) with
  | TimedOut msg =>
      (inl (GuidelinelyTimeoutError ("Request timed out: " ++ msg)), w')
  | TransportFailed msg => (inl (HttpxTransportError msg), w')
  | Responded r =>
      if (status_code r =? 200)%Z then
        match json_body r with
        | None => (inl JSONDecodeError, w')
        | Some data => (decode data, w')
        end
      else (inl (GuidelinelyAPIError (error_message r) (status_code r)), w')
  end.

(** The service answers [o] to the GET of [path] in world [w]. *)
Definition answers (w : world) (path : string) (o : http_outcome) : Prop :=
  remote (sent (trace w)) (get_request (GUIDELINELY_API_BASE ++ path) None) = o.

(** What [list_sources] makes of the JSON body. *)
Definition decode_sources (data : pyval) : exn + list SourceResponse :=
  match py_iter data with
  | inl e => inl e
  | inr sources => comprehension SourceResponse_new sources
  end.

(* =================================================================== *)
(** ** Values: structural equality decides equality *)
(* =================================================================== *)

Section pyval_induction.

Variable P : pyval -> Prop.
Hypothesis HNone : P PNone.
Hypothesis HBool : forall b, P (PBool b).
Hypothesis HInt : forall z, P (PInt z).
Hypothesis HFloat : forall f, P (PFloat f).
Hypothesis HStr : forall s, P (PStr s).
Hypothesis HList : forall l, Forall P l -> P (PList l).
Hypothesis HDict :
  forall d, Forall (fun kv => P (snd kv)) d -> P (PDict d).

(** Induction on a value that reaches the elements of lists and the
    values of dicts. *)
Fixpoint pyval_nested_ind (v : pyval) : P v :=
  match v with
  | PNone => HNone
  | PBool b => HBool b
  | PInt z => HInt z
  | PFloat f => HFloat f
  | PStr s => HStr s
  | PList l =>
      HList l
        ((fix go (l : list pyval) : Forall P l :=
            match l with
            | [] => Forall_nil P
            | x :: l' => Forall_cons x (pyval_nested_ind x) (go l')
            end) l)
  | PDict d =>
      HDict d
        ((fix go (d : list (string * pyval))
            : Forall (fun kv => P (snd kv)) d :=
            match d with
            | [] => Forall_nil _
            | kv :: d' =>
                Forall_cons kv (pyval_nested_ind (snd kv)) (go d')
            end) d)
  end.

End pyval_induction.

Lemma float_eqb_eq (x y : spec_float) : float_eqb x y = true <-> x = y.
Proof.
  destruct x, y; simpl; split; intro H; try discriminate; try reflexivity.
  - apply Bool.eqb_prop in H. now subst.
  - inversion H. apply Bool.eqb_reflx.
  - apply Bool.eqb_prop in H. now subst.
  - inversion H. apply Bool.eqb_reflx.
  - apply andb_true_iff in H as [H He]. apply andb_true_iff in H as [Hs Hm].
    apply Bool.eqb_prop in Hs. apply Pos.eqb_eq in Hm. apply Z.eqb_eq in He.
    now subst.
  - inversion H. subst. rewrite Bool.eqb_reflx, Pos.eqb_refl, Z.eqb_refl.
    reflexivity.
Qed.

Lemma pyval_eqb_eq (a b : pyval) : pyval_eqb a b = true <-> a = b.
Proof.
  revert b. induction a using pyval_nested_ind; intros [ | | | | | ys | ys];
    simpl; try (split; intro E; (discriminate || reflexivity)).
  - rewrite Bool.eqb_true_iff. split; intro E; [now subst | now inversion E].
  - rewrite Z.eqb_eq. split; intro E; [now subst | now inversion E].
  - rewrite float_eqb_eq. split; intro E; [now subst | now inversion E].
  - rewrite String.eqb_eq. split; intro E; [now subst | now inversion E].
  - revert ys. induction H as [ | x l Hx _ IH]; intros [ | y ys].
    + split; reflexivity.
    + split; intro E; discriminate.
    + split; intro E; discriminate.
    + rewrite andb_true_iff, Hx, IH. split.
      * intros [-> E]. now inversion E.
      * intro E. inversion E. now split.
  - revert ys. induction H as [ | [k x] d Hx _ IH]; intros [ | [l y] ys].
    + split; reflexivity.
    + split; intro E; discriminate.
    + split; intro E; discriminate.
    + simpl in Hx. rewrite !andb_true_iff, String.eqb_eq, Hx, IH. split.
      * intros [[-> ->] E]. now inversion E.
      * intro E. inversion E. now repeat split.
Qed.

Lemma pyval_eqb_refl (a : pyval) : pyval_eqb a a = true.
Proof. now apply pyval_eqb_eq. Qed.

Lemma pyval_eqb_neq (a b : pyval) : a <> b -> pyval_eqb a b = false.
Proof.
  intro N. destruct (pyval_eqb a b) eqn:E; [ | reflexivity].
  now apply pyval_eqb_eq in E.
Qed.

(* ===================================================================== *)
(** ** Traces *)
(* ===================================================================== *)

Lemma sent_app (tr tr' : list event) : sent (tr ++ tr') = sent tr ++ sent tr'.
Proof.
  induction tr as [ | [k | k v e | r] tr IH]; simpl; rewrite ?IH; reflexivity.
Qed.

Lemma cache_keys_app (tr tr' : list event) :
  cache_keys (tr ++ tr') = cache_keys tr ++ cache_keys tr'.
Proof.
  induction tr as [ | [k | k v e | r] tr IH]; simpl; rewrite ?IH; reflexivity.
Qed.

Lemma skipn_length_app {A : Type} (l l' : list A) : skipn (length l) (l ++ l') = l'.
Proof. induction l; simpl; auto. Qed.

Lemma events_since_log1 (w : world) (e : event) :
  events_since w (log e w) = [e].
Proof. unfold events_since, log; simpl. apply skipn_length_app. Qed.

Lemma events_since_log2 (w : world) (e1 e2 : event) :
  events_since w (log e2 (log e1 w)) = [e1; e2].
Proof.
  unfold events_since, log; simpl. rewrite <- app_assoc. apply skipn_length_app.
Qed.

Lemma events_since_log3 (w : world) (e1 e2 e3 : event) :
  events_since w (log e3 (log e2 (log e1 w))) = [e1; e2; e3].
Proof.
  unfold events_since, log; simpl. rewrite <- !app_assoc. apply skipn_length_app.
Qed.

Lemma events_since_with_cache (w w' : world) (c : Cache) :
  events_since w (with_cache c w') = events_since w w'.
Proof. reflexivity. Qed.

Lemma events_since_refl (w : world) : events_since w w = [].
Proof. unfold events_since. apply skipn_all. Qed.

(* ===================================================================== *)
(** ** The store *)
(* ===================================================================== *)

Lemma find_row_put_same (rs : list row) (k v : pyval) (t : option Z) (now : Z) :
  row_live now (mkRow k v t) = true ->
  find_row (put_row rs k v t) k now = Some (mkRow k v t).
Proof.
  intro L. unfold find_row, put_row. simpl.
  rewrite pyval_eqb_refl. simpl in *. unfold row_live in L. simpl in L.
  unfold row_live at 1. simpl. rewrite L. reflexivity.
Qed.

Lemma find_row_put_other (rs : list row) (k k' v : pyval) (t : option Z)
    (now : Z) :
  k <> k' -> find_row (put_row rs k v t) k' now = find_row rs k' now.
Proof.
  intro N. unfold find_row, put_row. simpl.
  rewrite (pyval_eqb_neq k k' N). simpl.
  induction rs as [ | r rs IH]; simpl; [reflexivity | ].
  destruct (pyval_eqb (row_key r) k) eqn:E; simpl.
  - apply pyval_eqb_eq in E. rewrite E, (pyval_eqb_neq k k' N). simpl. exact IH.
  - destruct (pyval_eqb (row_key r) k' && row_live now r); [reflexivity | exact IH].
Qed.

Lemma find_row_key (rs : list row) (k : pyval) (now : Z) (r : row) :
  find_row rs k now = Some r -> row_key r = k /\ row_live now r = true.
Proof.
  unfold find_row. intro F. apply find_some in F as [_ F].
  apply andb_true_iff in F as [F L]. apply pyval_eqb_eq in F. now split.
Qed.

(* ===================================================================== *)
(** ** The runs of [calculate_guidelines] and [calculate_batch] *)
(* ===================================================================== *)

Lemma sent_log_cache_get (w : world) (k : pyval) :
  sent (trace (log (CacheGet k) w)) = sent (trace w).
Proof. unfold log; simpl. rewrite sent_app. simpl. apply app_nil_r. Qed.

(** Unfolds a run down to the store, the service and the validators. *)
Ltac run_client :=
  cbv beta iota zeta delta
    [calculate_guidelines calculate_batch try_except_timeout bind
     get_api_key get_cached set_cached Cache_get Cache_set client_post
     httpx_send check_status _handle_error lift timed_out raise ret].

(** The cache cannot be read: the storage error leaves
    [calculate_guidelines] after the lookup. *)
Lemma calculate_guidelines_unreadable parameter media context target_unit
    api_key w msg :
  read_error (cache w) = Some msg ->
  calculate_guidelines parameter media context target_unit api_key w
  = (inl (StorageError msg),
     log (CacheGet (calculate_cache_key parameter media context target_unit)) w).
Proof. intro R. run_client. rewrite R. reflexivity. Qed.

(** A truthy stored payload is validated and returned; nothing is sent. *)
Lemma calculate_guidelines_hit parameter media context target_unit api_key w :
  let K := calculate_cache_key parameter media context target_unit in
  read_error (cache w) = None ->
  truthy (stored w K) = true ->
  calculate_guidelines parameter media context target_unit api_key w
  = (CalculationResponse_new (stored w K), log (CacheGet K) w).
Proof.
  intros K R T. run_client. rewrite R. fold K.
  destruct (stored w K) eqn:S; [discriminate T | ..];
    cbv beta iota; rewrite T;
    match goal with
    | |- context [CalculationResponse_new ?x] =>
        destruct (CalculationResponse_new x)
    end; reflexivity.
Qed.

(** Validation raises [TypeError] or [ValidationError], never a timeout. *)
Lemma CalculationResponse_new_error (payload : pyval) (e : exn) :
  CalculationResponse_new payload = inl e ->
  e = TypeError "argument after ** must be a mapping"
  \/ e = ValidationError "CalculationResponse".
Proof.
  unfold CalculationResponse_new. intro V.
  repeat match type of V with
         | match ?x with _ => _ end = _ => destruct x
         end; inversion V; auto.
Qed.

Lemma CalculationResponse_new_not_timeout (payload : pyval) (e : exn) :
  CalculationResponse_new payload = inl e -> is_httpx_timeout e = None.
Proof.
  intro V. apply CalculationResponse_new_error in V as [-> | ->]; reflexivity.
Qed.

(** The steps after a falsy lookup, down to [fetch_outcome]. *)
Ltac after_miss K req w :=
  unfold fetch_outcome;
  match goal with T : truthy (stored w K) = false |- _ =>
    destruct (stored w K); cbv beta iota; rewrite T; cbv beta iota
  end;
  rewrite sent_log_cache_get;
  (destruct (remote (sent (trace w)) req) as [r | msg | msg];
   [ | reflexivity | reflexivity ]);
  (destruct (status_code r =? 200)%Z; [ | reflexivity ]);
  unfold response_json;
  (destruct (json_body r) as [data | ]; [ | reflexivity ]);
  cbv beta iota; unfold log at 1 2 3; simpl cache;
  (destruct (write_error (cache w)) as [m | ] eqn:W; [reflexivity | ]);
  cbv beta iota;
  (destruct (CalculationResponse_new data) eqn:V;
   [apply CalculationResponse_new_not_timeout in V; rewrite V | ]);
  reflexivity.

(** After a miss (nothing stored, or a falsy payload) the request is sent
    and answered as [fetch_outcome] says. *)
Lemma calculate_guidelines_miss parameter media context target_unit api_key w :
  let K := calculate_cache_key parameter media context target_unit in
  read_error (cache w) = None ->
  truthy (stored w K) = false ->
  calculate_guidelines parameter media context target_unit api_key w
  = fetch_outcome K
      (calculate_request parameter media context target_unit
         (resolved_key api_key w)) w.
Proof.
  intros K R T. run_client. rewrite R. fold K.
  fold (calculate_request parameter media context target_unit
          (resolved_key api_key w)).
  set (req := calculate_request _ _ _ _ _).
  now after_miss K req w.
Qed.

(** More than 50 parameters: [calculate_batch] raises at once. *)
Lemma calculate_batch_too_many parameters media context api_key w :
  (50 < length parameters)%nat ->
  calculate_batch parameters media context api_key w
  = (inl (ValueError "Maximum 50 parameters per batch request"), w).
Proof.
  intro L. unfold calculate_batch. apply Nat.ltb_lt in L. rewrite L. reflexivity.
Qed.

Lemma calculate_batch_unreadable parameters media context api_key w msg :
  (length parameters <= 50)%nat ->
  read_error (cache w) = Some msg ->
  calculate_batch parameters media context api_key w
  = (inl (StorageError msg),
     log (CacheGet (batch_cache_key parameters media context)) w).
Proof.
  intros L R. apply Nat.ltb_ge in L. run_client. rewrite L, R. reflexivity.
Qed.

Lemma calculate_batch_hit parameters media context api_key w :
  let K := batch_cache_key parameters media context in
  (length parameters <= 50)%nat ->
  read_error (cache w) = None ->
  truthy (stored w K) = true ->
  calculate_batch parameters media context api_key w
  = (CalculationResponse_new (stored w K), log (CacheGet K) w).
Proof.
  intros K L R T. apply Nat.ltb_ge in L. run_client. rewrite L, R. fold K.
  destruct (stored w K) eqn:S; [discriminate T | ..];
    cbv beta iota; rewrite T;
    match goal with
    | |- context [CalculationResponse_new ?x] =>
        destruct (CalculationResponse_new x)
    end; reflexivity.
Qed.

Lemma calculate_batch_miss parameters media context api_key w :
  let K := batch_cache_key parameters media context in
  (length parameters <= 50)%nat ->
  read_error (cache w) = None ->
  truthy (stored w K) = false ->
  calculate_batch parameters media context api_key w
  = fetch_outcome K
      (batch_request parameters media context (resolved_key api_key w)) w.
Proof.
  intros K L R T. apply Nat.ltb_ge in L. run_client. rewrite L, R. fold K.
  fold (batch_request parameters media context (resolved_key api_key w)).
  set (req := batch_request _ _ _ _).
  now after_miss K req w.
Qed.

(* ===================================================================== *)
(** ** What a fetch does *)
(* ===================================================================== *)

(** Whatever the service answers, a fetch reads the cache once, sends one
    request and writes at most once, under the key it read, with the
    default time to live. *)
Lemma fetch_outcome_events (K : pyval) (req : http_request) (w : world) :
  let tr := events_since w (snd (fetch_outcome K req w)) in
  tr = [CacheGet K; HttpSend req]
  \/ exists data, tr = [CacheGet K; HttpSend req; CacheSet K data (Some DEFAULT_TTL)].
Proof.
  unfold fetch_outcome.
  destruct (remote (sent (trace w)) req) as [r | msg | msg]; simpl;
    try (left; apply events_since_log2).
  destruct (status_code r =? 200)%Z; simpl; [ | left; apply events_since_log2].
  destruct (json_body r) as [data | ]; simpl; [ | left; apply events_since_log2].
  right. exists data.
  destruct (write_error (cache w)); simpl;
    rewrite ?events_since_with_cache; apply events_since_log3.
Qed.

Lemma fetch_outcome_sent (K : pyval) (req : http_request) (w : world) :
  sent (events_since w (snd (fetch_outcome K req w))) = [req].
Proof.
  destruct (fetch_outcome_events K req w) as [E | [data E]];
    cbv zeta in E; rewrite E; reflexivity.
Qed.

(** A fetch raises no [ValueError]. *)
Lemma fetch_outcome_no_value_error (K : pyval) (req : http_request) (w : world)
    (msg : string) :
  fst (fetch_outcome K req w) <> inl (ValueError msg).
Proof.
  unfold fetch_outcome.
  destruct (remote (sent (trace w)) req) as [r | m | m]; simpl; try discriminate.
  destruct (status_code r =? 200)%Z; simpl; [ | discriminate].
  destruct (json_body r) as [data | ]; simpl; [ | discriminate].
  destruct (write_error (cache w)); simpl; [discriminate | ].
  destruct (CalculationResponse_new data) eqn:V; [ | discriminate].
  apply CalculationResponse_new_error in V as [-> | ->]; discriminate.
Qed.

(** A payload that validates is a non-empty dict, hence truthy. *)
Lemma CalculationResponse_new_truthy (payload : pyval) (r : CalculationResponse) :
  CalculationResponse_new payload = inr r -> truthy payload = true.
Proof.
  destruct payload as [ | | | | | | [ | kv kwargs]]; simpl; try discriminate.
  reflexivity.
Qed.

(* ===================================================================== *)
(** ** Cache keys are injective in the arguments *)
(* ===================================================================== *)








(* ===================================================================== *)
(** ** The actions of one call *)
(* ===================================================================== *)

(** One call of [calculate_guidelines] reads the cache under its key, then
    either stops there (a hit, or a storage error), or sends its request,
    and then writes the answer under the same key if the answer is a 200
    with a JSON body. *)
Lemma calculate_guidelines_events parameter media context target_unit api_key w :
  let K := calculate_cache_key parameter media context target_unit in
  let req := calculate_request parameter media context target_unit
               (resolved_key api_key w) in
  let tr := events_since w
              (snd (calculate_guidelines parameter media context target_unit
                      api_key w)) in
  tr = [CacheGet K]
  \/ tr = [CacheGet K; HttpSend req]
  \/ exists data, tr = [CacheGet K; HttpSend req; CacheSet K data (Some DEFAULT_TTL)].
Proof.
  intros K req tr. subst tr.
  destruct (read_error (cache w)) as [msg | ] eqn:R.
  - rewrite (calculate_guidelines_unreadable _ _ _ _ _ _ _ R).
    left. apply events_since_log1.
  - destruct (truthy (stored w K)) eqn:T.
    + rewrite (calculate_guidelines_hit _ _ _ _ _ _ R T).
      left. apply events_since_log1.
    + rewrite (calculate_guidelines_miss _ _ _ _ _ _ R T).
      right. apply fetch_outcome_events.
Qed.

(** The same for [calculate_batch], which does nothing at all when it is
    given more than 50 parameters. *)
Lemma calculate_batch_events parameters media context api_key w :
  let K := batch_cache_key parameters media context in
  let req := batch_request parameters media context (resolved_key api_key w) in
  let tr := events_since w
              (snd (calculate_batch parameters media context api_key w)) in
  ((50 < length parameters)%nat /\ tr = [])
  \/ ((length parameters <= 50)%nat
      /\ (tr = [CacheGet K]
          \/ tr = [CacheGet K; HttpSend req]
          \/ exists data,
               tr = [CacheGet K; HttpSend req; CacheSet K data (Some DEFAULT_TTL)])).
Proof.
  intros K req tr. subst tr.
  destruct (Nat.lt_ge_cases 50 (length parameters)) as [L | L].
  - left. split; [exact L | ].
    rewrite (calculate_batch_too_many _ _ _ _ _ L). apply events_since_refl.
  - right. split; [exact L | ].
    destruct (read_error (cache w)) as [msg | ] eqn:R.
    + rewrite (calculate_batch_unreadable _ _ _ _ _ _ L R).
      left. apply events_since_log1.
    + destruct (truthy (stored w K)) eqn:T.
      * rewrite (calculate_batch_hit _ _ _ _ _ L R T).
        left. apply events_since_log1.
      * rewrite (calculate_batch_miss _ _ _ _ _ L R T).
        right. apply fetch_outcome_events.
Qed.

(** The key that a call of [calculate_guidelines] looks up. *)
Lemma calculate_guidelines_lookup_key parameter media context target_unit
    api_key w :
  lookup_key (events_since w
                (snd (calculate_guidelines parameter media context target_unit
                        api_key w)))
  = Some (calculate_cache_key parameter media context target_unit).
Proof.
  destruct (calculate_guidelines_events parameter media context target_unit
              api_key w) as [E | [E | [data E]]];
    cbv zeta in E; rewrite E; reflexivity.
Qed.

(** The key that an accepted call of [calculate_batch] looks up. *)
Lemma calculate_batch_lookup_key parameters media context api_key w :
  (length parameters <= 50)%nat ->
  lookup_key (events_since w
                (snd (calculate_batch parameters media context api_key w)))
  = Some (batch_cache_key parameters media context).
Proof.
  intro L.
  destruct (calculate_batch_events parameters media context api_key w)
    as [[L' _] | [_ [E | [E | [data E]]]]];
    [lia | ..]; cbv zeta in E; rewrite E; reflexivity.
Qed.

(** An accepted call of [calculate_batch] raises no [ValueError]. *)
Lemma calculate_batch_no_value_error parameters media context api_key w msg :
  (length parameters <= 50)%nat ->
  fst (calculate_batch parameters media context api_key w)
  <> inl (ValueError msg).
Proof.
  intro L. set (K := batch_cache_key parameters media context).
  destruct (read_error (cache w)) as [m | ] eqn:R.
  - rewrite (calculate_batch_unreadable _ _ _ _ _ _ L R). discriminate.
  - destruct (truthy (stored w K)) eqn:T.
    + rewrite (calculate_batch_hit _ _ _ _ _ L R T). simpl. fold K.
      destruct (CalculationResponse_new (stored w K)) eqn:V; [ | discriminate].
      apply CalculationResponse_new_error in V as [-> | ->]; discriminate.
    + rewrite (calculate_batch_miss _ _ _ _ _ L R T).
      apply fetch_outcome_no_value_error.
Qed.

(* ===================================================================== *)
(** ** Cache keys: what they depend on *)
(* ===================================================================== *)



(** C5.  The cache keys of a call do not depend on the credential: two
    calls of [calculate_guidelines] (or of [calculate_batch]) that differ
    in the [api_key] argument and in the worlds they run in, hence in the
    ambient API-key setting, touch the cache under one and the same key,
    which is made of the other arguments only. *)
Theorem C5_cache_key_has_no_credential :
  forall parameter media context target_unit parameters
         (api_key1 api_key2 : option string) (w1 w2 : world),
    let keys1 := cache_keys (events_since w1
                   (snd (calculate_guidelines parameter media context
                           target_unit api_key1 w1))) in
    let keys2 := cache_keys (events_since w2
                   (snd (calculate_guidelines parameter media context
                           target_unit api_key2 w2))) in
    let bkeys1 := cache_keys (events_since w1
                    (snd (calculate_batch parameters media context
                            api_key1 w1))) in
    let bkeys2 := cache_keys (events_since w2
                    (snd (calculate_batch parameters media context
                            api_key2 w2))) in
    hd_error keys1 = Some (calculate_cache_key parameter media context target_unit)
    /\ hd_error keys1 = hd_error keys2
    /\ Forall (eq (calculate_cache_key parameter media context target_unit))
         (keys1 ++ keys2)
    /\ hd_error bkeys1 = hd_error bkeys2
    /\ Forall (eq (batch_cache_key parameters media context)) (bkeys1 ++ bkeys2).
Proof.
  intros parameter media context target_unit parameters k1 k2 w1 w2.
  cbv zeta.
  assert (G : forall k w,
             let keys := cache_keys (events_since w
                           (snd (calculate_guidelines parameter media context
                                   target_unit k w))) in
             hd_error keys
             = Some (calculate_cache_key parameter media context target_unit)
             /\ Forall (eq (calculate_cache_key parameter media context target_unit))
                  keys).
  { intros k w.
    destruct (calculate_guidelines_events parameter media context target_unit k w)
      as [E | [E | [data E]]]; cbv zeta in E |- *; rewrite E; simpl;
      repeat constructor. }
  assert (B : forall k w,
             let keys := cache_keys (events_since w
                           (snd (calculate_batch parameters media context k w))) in
             hd_error keys
             = (if (50 <? length parameters)%nat then None
                else Some (batch_cache_key parameters media context))
             /\ Forall (eq (batch_cache_key parameters media context)) keys).
  { intros k w.
    destruct (calculate_batch_events parameters media context k w)
      as [[L E] | [L [E | [E | [data E]]]]]; cbv zeta in E |- *; rewrite E; simpl.
    - apply Nat.ltb_lt in L. rewrite L. split; constructor.
    - apply Nat.ltb_ge in L. rewrite L. repeat constructor.
    - apply Nat.ltb_ge in L. rewrite L. repeat constructor.
    - apply Nat.ltb_ge in L. rewrite L. repeat constructor. }
  destruct (G k1 w1) as [G1 G1'], (G k2 w2) as [G2 G2'].
  destruct (B k1 w1) as [B1 B1'], (B k2 w2) as [B2 B2'].
  cbv zeta in *.
  repeat split.
  - exact G1.
  - congruence.
  - apply Forall_app. now split.
  - congruence.
  - apply Forall_app. now split.
Qed.

(* ===================================================================== *)
(** ** Validation of the batch size *)
(* ===================================================================== *)

(** C2.  With more than 50 parameters [calculate_batch] raises the
    [ValueError] and leaves the world as it was: no cache lookup, no
    request, no write.  With exactly 50 parameters no [ValueError] is
    raised, and the call goes on to its cache lookup. *)
Theorem C2_batch_limit_checked_before_any_effect :
  forall parameters media context api_key w,
    ((50 < length parameters)%nat ->
     calculate_batch parameters media context api_key w
     = (inl (ValueError "Maximum 50 parameters per batch request"), w))
    /\ (length parameters = 50%nat ->
        (forall msg,
            fst (calculate_batch parameters media context api_key w)
            <> inl (ValueError msg))
        /\ lookup_key (events_since w
                         (snd (calculate_batch parameters media context
                                 api_key w)))
           = Some (batch_cache_key parameters media context)).
Proof.
  intros parameters media context api_key w. split.
  - apply calculate_batch_too_many.
  - intro L. split.
    + intro msg. apply calculate_batch_no_value_error. lia.
    + apply calculate_batch_lookup_key. lia.
Qed.

(** C3 (as amended).  [calculate_batch] checks only the upper bound of the
    parameter list.  When media is the empty string or the parameter list
    is empty (and no longer than 50), no [ValueError] is raised: the call
    goes on to its cache lookup, and when the store is readable and holds
    no truthy payload for the key, it sends the request. *)
Theorem C3_batch_accepts_empty_media_and_parameters :
  forall parameters media context api_key w,
    parameters = [] \/ media = "" ->
    (length parameters <= 50)%nat ->
    let run := calculate_batch parameters media context api_key w in
    (forall msg, fst run <> inl (ValueError msg))
    /\ lookup_key (events_since w (snd run))
       = Some (batch_cache_key parameters media context)
    /\ (read_error (cache w) = None ->
        truthy (stored w (batch_cache_key parameters media context)) = false ->
        sent (events_since w (snd run))
        = [batch_request parameters media context (resolved_key api_key w)]).
Proof.
  intros parameters media context api_key w _ L run. subst run.
  repeat split.
  - intro msg. now apply calculate_batch_no_value_error.
  - now apply calculate_batch_lookup_key.
  - intros R T. rewrite (calculate_batch_miss _ _ _ _ _ L R T).
    apply fetch_outcome_sent.
Qed.

(* ===================================================================== *)
(** ** Hits, misses and failures *)
(* ===================================================================== *)

Lemma stored_log (w : world) (e : event) (K : pyval) :
  stored (log e w) K = stored w K.
Proof. reflexivity. Qed.

(** What a read finds after a write under the same key at the same time. *)
Lemma stored_after_put (w w' : world) (K data : pyval) (ttl : Z) rd wr :
  (0 < ttl)%Z ->
  clock w' = clock w ->
  stored
    (with_cache
       (mkCache (put_row (rows (cache w)) K data (Some (clock w + ttl)%Z)) rd wr)
       w') K
  = data.
Proof.
  intros Pos C. unfold stored, with_cache. cbn [cache rows clock]. rewrite C.
  rewrite find_row_put_same; [reflexivity | ].
  unfold row_live. simpl. apply Z.ltb_lt. lia.
Qed.


(** C6.  When the cache has nothing to serve and the service answers the
    request of [calculate_guidelines] with a status other than 200, the
    call raises [GuidelinelyAPIError] with the message extracted from the
    response and that status code; the cache is left as it was, nothing is
    written, and the same call made again sends the request again. *)
Theorem C6_remote_fault_is_raised_and_not_cached :
  forall parameter media context target_unit api_key w resp,
    let K := calculate_cache_key parameter media context target_unit in
    let req := calculate_request parameter media context target_unit
                 (resolved_key api_key w) in
    let call := calculate_guidelines parameter media context target_unit
                  api_key in
    read_error (cache w) = None ->
    truthy (stored w K) = false ->
    remote (sent (trace w)) req = Responded resp ->
    status_code resp <> 200%Z ->
    fst (call w)
    = inl (GuidelinelyAPIError (error_message resp) (status_code resp))
    /\ cache (snd (call w)) = cache w
    /\ set_expiries (events_since w (snd (call w))) = []
    /\ sent (events_since (snd (call w)) (snd (call (snd (call w))))) = [req].
Proof.
  intros parameter media context target_unit api_key w resp K req call
         R T Resp Status.
  set (w1 := log (HttpSend req) (log (CacheGet K) w)).
  assert (E : call w
              = (inl (GuidelinelyAPIError (error_message resp) (status_code resp)),
                 w1)).
  { subst call. cbv beta.
    rewrite (calculate_guidelines_miss _ _ _ _ _ _ R T). fold K. fold req.
    unfold fetch_outcome. rewrite Resp.
    apply Z.eqb_neq in Status. rewrite Status. reflexivity. }
  rewrite E. cbn [fst snd].
  repeat split.
  - unfold w1. rewrite events_since_log2. reflexivity.
  - assert (R1 : read_error (cache w1) = None) by exact R.
    assert (T1 : truthy (stored w1 K) = false) by exact T.
    subst call. cbv beta.
    rewrite (calculate_guidelines_miss _ _ _ _ _ _ R1 T1). fold K.
    rewrite fetch_outcome_sent. reflexivity.
Qed.

(** C7 (as amended).  When the read of the cache fails with a storage
    error, [calculate_guidelines] and [calculate_batch] do not catch it:
    the error reaches the caller and no request is sent. *)
Theorem C7_storage_error_on_read_propagates :
  forall parameter media context target_unit parameters api_key w msg,
    read_error (cache w) = Some msg ->
    (length parameters <= 50)%nat ->
    let single := calculate_guidelines parameter media context target_unit
                    api_key w in
    let batch := calculate_batch parameters media context api_key w in
    fst single = inl (StorageError msg)
    /\ sent (events_since w (snd single)) = []
    /\ fst batch = inl (StorageError msg)
    /\ sent (events_since w (snd batch)) = [].
Proof.
  intros parameter media context target_unit parameters api_key w msg R L
         single batch.
  subst single batch.
  rewrite (calculate_guidelines_unreadable _ _ _ _ _ _ _ R).
  rewrite (calculate_batch_unreadable _ _ _ _ _ _ L R).
  cbn [fst snd]. rewrite !events_since_log1. repeat split.
Qed.


(** C10.  When the store holds a live entry for the key of the call and
    the payload of that entry is falsy (an empty dict, [None], ...), the
    call treats the lookup as a miss: it sends its request to the service
    all the same. *)
Theorem C10_falsy_payload_is_a_miss :
  forall parameter media context target_unit parameters api_key w,
    (forall entry,
        read_error (cache w) = None ->
        find_row (rows (cache w))
          (calculate_cache_key parameter media context target_unit) (clock w)
        = Some entry ->
        truthy (row_value entry) = false ->
        sent (events_since w
                (snd (calculate_guidelines parameter media context target_unit
                        api_key w)))
        = [calculate_request parameter media context target_unit
             (resolved_key api_key w)])
    /\ (forall entry,
           (length parameters <= 50)%nat ->
           read_error (cache w) = None ->
           find_row (rows (cache w))
             (batch_cache_key parameters media context) (clock w)
           = Some entry ->
           truthy (row_value entry) = false ->
           sent (events_since w
                   (snd (calculate_batch parameters media context api_key w)))
           = [batch_request parameters media context (resolved_key api_key w)]).
Proof.
  intros parameter media context target_unit parameters api_key w. split.
  - intros entry R F T.
    assert (T' : truthy (stored w (calculate_cache_key parameter media context
                                     target_unit)) = false)
      by (unfold stored; rewrite F; exact T).
    rewrite (calculate_guidelines_miss _ _ _ _ _ _ R T').
    apply fetch_outcome_sent.
  - intros entry L R F T.
    assert (T' : truthy (stored w (batch_cache_key parameters media context))
                 = false)
      by (unfold stored; rewrite F; exact T).
    rewrite (calculate_batch_miss _ _ _ _ _ L R T').
    apply fetch_outcome_sent.
Qed.

(* ===================================================================== *)
(** ** Error messages *)
(* ===================================================================== *)

(** X1.  The message that [_handle_error] puts in the API error is never
    falsy; it is the default "API request failed" whenever the body of the
    response is not JSON, or is JSON but not an object. *)
Theorem X1_error_message_never_empty :
  forall response,
    truthy (error_message response) = true
    /\ match json_body response with
       | Some (PDict _) => True
       | _ => error_message response = PStr "API request failed"
       end.
Proof.
  intros [status [body | ]]; unfold error_message, response_json; simpl.
  - destruct body as [ | b | z | f | s | l | d]; simpl; auto.
    split; [ | exact I].
    destruct (truthy (match dict_lookup d "detail" with
                      | Some x => x
                      | None => PNone
                      end)) eqn:D; [exact D | ].
    unfold py_or.
    destruct (truthy (match dict_lookup d "message" with
                      | Some x => x
                      | None => PNone
                      end)) eqn:Msg; [exact Msg | reflexivity].
  - auto.
Qed.

(** X2.  For a JSON object as body, a truthy [detail] is the message,
    whatever [message] holds; without a truthy [detail], a truthy
    [message] is the message. *)
Theorem X2_detail_before_message :
  forall status d detail message,
    (dict_lookup d "detail" = Some detail ->
     truthy detail = true ->
     error_message (mkResponse status (Some (PDict d))) = detail)
    /\ ((dict_lookup d "detail" = None
         \/ exists x, dict_lookup d "detail" = Some x /\ truthy x = false) ->
        dict_lookup d "message" = Some message ->
        truthy message = true ->
        error_message (mkResponse status (Some (PDict d))) = message).
Proof.
  intros status d detail message. split.
  - intros D T. unfold error_message, response_json; simpl. rewrite D, T.
    reflexivity.
  - intros D Msg T. unfold error_message, response_json, py_or; simpl.
    destruct D as [D | [x [D F]]]; rewrite D; simpl; rewrite ?F, Msg, T;
      reflexivity.
Qed.

(* ===================================================================== *)
(** ** The request model and the client agree on the batch limit *)
(* ===================================================================== *)

(** X3.  [BatchCalculateRequest.validate_parameter_count] accepts a request
    exactly when it has at most 50 parameters, and [calculate_batch] called
    with as many parameters raises a [ValueError] exactly when the model
    does, with the same message. *)
Theorem X3_model_and_client_agree_on_limit :
  forall (self : BatchCalculateRequest.t) parameters media context api_key w msg,
    length parameters = length (BatchCalculateRequest.parameters self) ->
    (BatchCalculateRequest.validate_parameter_count self = inr self
     <-> (length (BatchCalculateRequest.parameters self) <= 50)%nat)
    /\ (fst (calculate_batch parameters media context api_key w)
        = inl (ValueError msg)
        <-> BatchCalculateRequest.validate_parameter_count self
            = inl (ValueError msg)).
Proof.
  intros self parameters media context api_key w msg E.
  unfold BatchCalculateRequest.validate_parameter_count. rewrite <- E.
  destruct (Nat.ltb_spec 50 (length parameters)) as [L | L].
  - split.
    + split; [discriminate | lia].
    + rewrite (calculate_batch_too_many _ _ _ _ _ L). cbn [fst].
      split; intro H; injection H as <-; reflexivity.
  - split.
    + split; [intros _; exact L | reflexivity].
    + split; [ | discriminate].
      intro V. exfalso.
      exact (calculate_batch_no_value_error _ _ _ _ _ _ L V).
Qed.

(* ===================================================================== *)
(** ** The outcomes of a fetch *)
(* ===================================================================== *)

Lemma fetch_timed_out (K : pyval) (req : http_request) (w : world) (msg : string) :
  remote (sent (trace w)) req = TimedOut msg ->
  fetch_outcome K req w
  = (inl (GuidelinelyTimeoutError ("Request timed out: " ++ msg)),
     log (HttpSend req) (log (CacheGet K) w)).
Proof. intro O. unfold fetch_outcome. rewrite O. reflexivity. Qed.

Lemma fetch_stored (K : pyval) (req : http_request) (w : world) resp data :
  remote (sent (trace w)) req = Responded resp ->
  status_code resp = 200%Z ->
  json_body resp = Some data ->
  write_error (cache w) = None ->
  fetch_outcome K req w
  = (CalculationResponse_new data,
     with_cache
       (mkCache (put_row (rows (cache w)) K data (Some (clock w + DEFAULT_TTL)%Z))
          (read_error (cache w)) None)
       (log (CacheSet K data (Some DEFAULT_TTL))
          (log (HttpSend req) (log (CacheGet K) w)))).
Proof.
  intros O S B W. unfold fetch_outcome. rewrite O, S, B, W. reflexivity.
Qed.

Lemma fetch_write_failed (K : pyval) (req : http_request) (w : world) resp data m :
  remote (sent (trace w)) req = Responded resp ->
  status_code resp = 200%Z ->
  json_body resp = Some data ->
  write_error (cache w) = Some m ->
  fetch_outcome K req w
  = (inl (StorageError m),
     log (CacheSet K data (Some DEFAULT_TTL))
       (log (HttpSend req) (log (CacheGet K) w))).
Proof.
  intros O S B W. unfold fetch_outcome. rewrite O, S, B, W. reflexivity.
Qed.

(** A fetch writes only the JSON body of a 200 response, as it is. *)
Lemma fetch_written (K : pyval) (req : http_request) (w : world) k v e :
  In (CacheSet k v e) (events_since w (snd (fetch_outcome K req w))) ->
  k = K /\ e = Some DEFAULT_TTL
  /\ exists resp,
       remote (sent (trace w)) req = Responded resp
       /\ status_code resp = 200%Z /\ json_body resp = Some v.
Proof.
  unfold fetch_outcome.
  destruct (remote (sent (trace w)) req) as [resp | m | m] eqn:O; simpl;
    try (rewrite events_since_log2; simpl; intuition discriminate).
  destruct (status_code resp =? 200)%Z eqn:S; simpl;
    try (rewrite events_since_log2; simpl; intuition discriminate).
  destruct (json_body resp) as [data | ] eqn:B; simpl;
    try (rewrite events_since_log2; simpl; intuition discriminate).
  intro I.
  assert (I' : In (CacheSet k v e)
                 [CacheGet K; HttpSend req; CacheSet K data (Some DEFAULT_TTL)]).
  { destruct (write_error (cache w)); simpl in I;
      rewrite ?events_since_with_cache, events_since_log3 in I; exact I. }
  simpl in I'. destruct I' as [I' | [I' | [I' | []]]]; try discriminate.
  injection I' as <- <- <-. repeat split.
  exists resp. apply Z.eqb_eq in S. repeat split; assumption.
Qed.

(** The cache after a fetch differs from the cache before at most in the
    row of the key. *)
Lemma fetch_outcome_frame (K K' : pyval) (req : http_request) (w : world) :
  K <> K' ->
  stored (snd (fetch_outcome K req w)) K' = stored w K'.
Proof.
  intro N. unfold fetch_outcome.
  destruct (remote (sent (trace w)) req) as [resp | m | m]; simpl;
    try reflexivity.
  destruct (status_code resp =? 200)%Z; simpl; try reflexivity.
  destruct (json_body resp) as [data | ]; simpl; try reflexivity.
  destruct (write_error (cache w)); simpl; try reflexivity.
  unfold stored, with_cache. cbn [cache rows clock log].
  now rewrite find_row_put_other.
Qed.

(* ===================================================================== *)
(** ** Timeouts, failed writes, poisoned entries *)
(* ===================================================================== *)

(** X4.  When the request of a call times out, the call raises
    [GuidelinelyTimeoutError] with "Request timed out: " before the reason;
    the cache is left as it was and nothing is written. *)
Theorem X4_timeout_is_reported_and_not_cached :
  forall parameter media context target_unit parameters api_key w msg,
    (read_error (cache w) = None ->
     truthy (stored w (calculate_cache_key parameter media context target_unit))
     = false ->
     remote (sent (trace w))
       (calculate_request parameter media context target_unit
          (resolved_key api_key w)) = TimedOut msg ->
     let run := calculate_guidelines parameter media context target_unit
                  api_key w in
     fst run = inl (GuidelinelyTimeoutError ("Request timed out: " ++ msg))
     /\ cache (snd run) = cache w
     /\ set_expiries (events_since w (snd run)) = [])
    /\ ((length parameters <= 50)%nat ->
        read_error (cache w) = None ->
        truthy (stored w (batch_cache_key parameters media context)) = false ->
        remote (sent (trace w))
          (batch_request parameters media context (resolved_key api_key w))
        = TimedOut msg ->
        let run := calculate_batch parameters media context api_key w in
        fst run = inl (GuidelinelyTimeoutError ("Request timed out: " ++ msg))
        /\ cache (snd run) = cache w
        /\ set_expiries (events_since w (snd run)) = []).
Proof.
  intros parameter media context target_unit parameters api_key w msg. split.
  - intros R T O run. subst run.
    rewrite (calculate_guidelines_miss _ _ _ _ _ _ R T), (fetch_timed_out _ _ _ _ O).
    cbn [fst snd]. rewrite events_since_log2. repeat split.
  - intros L R T O run. subst run.
    rewrite (calculate_batch_miss _ _ _ _ _ L R T), (fetch_timed_out _ _ _ _ O).
    cbn [fst snd]. rewrite events_since_log2. repeat split.
Qed.

(** X5.  [calculate_guidelines] and [calculate_batch] write to the cache
    only the JSON body of a response with status 200, unchanged, under the
    key of the call and with the default time to live. *)
Theorem X5_only_successful_payloads_are_cached :
  forall parameter media context target_unit parameters api_key w k v e,
    (In (CacheSet k v e)
       (events_since w
          (snd (calculate_guidelines parameter media context target_unit
                  api_key w))) ->
     k = calculate_cache_key parameter media context target_unit
     /\ e = Some 86400%Z
     /\ exists resp,
          remote (sent (trace w))
            (calculate_request parameter media context target_unit
               (resolved_key api_key w)) = Responded resp
          /\ status_code resp = 200%Z /\ json_body resp = Some v)
    /\ (In (CacheSet k v e)
          (events_since w
             (snd (calculate_batch parameters media context api_key w))) ->
        k = batch_cache_key parameters media context
        /\ e = Some 86400%Z
        /\ exists resp,
             remote (sent (trace w))
               (batch_request parameters media context (resolved_key api_key w))
             = Responded resp
             /\ status_code resp = 200%Z /\ json_body resp = Some v).
Proof.
  intros parameter media context target_unit parameters api_key w k v e. split.
  - destruct (read_error (cache w)) as [m | ] eqn:R.
    + rewrite (calculate_guidelines_unreadable _ _ _ _ _ _ _ R). cbn [snd].
      rewrite events_since_log1. simpl. intuition discriminate.
    + destruct (truthy (stored w (calculate_cache_key parameter media context
                                    target_unit))) eqn:T.
      * rewrite (calculate_guidelines_hit _ _ _ _ _ _ R T). cbn [snd].
        rewrite events_since_log1. simpl. intuition discriminate.
      * rewrite (calculate_guidelines_miss _ _ _ _ _ _ R T).
        apply fetch_written.
  - destruct (Nat.lt_ge_cases 50 (length parameters)) as [L | L].
    + rewrite (calculate_batch_too_many _ _ _ _ _ L). cbn [snd].
      rewrite events_since_refl. simpl. tauto.
    + destruct (read_error (cache w)) as [m | ] eqn:R.
      * rewrite (calculate_batch_unreadable _ _ _ _ _ _ L R). cbn [snd].
        rewrite events_since_log1. simpl. intuition discriminate.
      * destruct (truthy (stored w (batch_cache_key parameters media context)))
          eqn:T.
        -- rewrite (calculate_batch_hit _ _ _ _ _ L R T). cbn [snd].
           rewrite events_since_log1. simpl. intuition discriminate.
        -- rewrite (calculate_batch_miss _ _ _ _ _ L R T).
           apply fetch_written.
Qed.


(** X7.  A failure of the cache write is not caught either: when the
    service has answered 200 with a JSON body and the write fails, the call
    ends with the storage error although the request has been sent and
    answered, and the rows of the cache are as before. *)
Theorem X7_storage_error_on_write_propagates :
  forall parameter media context target_unit api_key w resp data m,
    let K := calculate_cache_key parameter media context target_unit in
    let req := calculate_request parameter media context target_unit
                 (resolved_key api_key w) in
    let run := calculate_guidelines parameter media context target_unit
                 api_key w in
    read_error (cache w) = None ->
    write_error (cache w) = Some m ->
    truthy (stored w K) = false ->
    remote (sent (trace w)) req = Responded resp ->
    status_code resp = 200%Z ->
    json_body resp = Some data ->
    fst run = inl (StorageError m)
    /\ events_since w (snd run)
       = [CacheGet K; HttpSend req; CacheSet K data (Some 86400%Z)]
    /\ cache (snd run) = cache w.
Proof.
  intros parameter media context target_unit api_key w resp data m K req run
         R W T O S B.
  subst run.
  rewrite (calculate_guidelines_miss _ _ _ _ _ _ R T).
  fold K. fold req. rewrite (fetch_write_failed _ _ _ _ _ _ O S B W).
  cbn [fst snd]. rewrite events_since_log3. repeat split.
Qed.

(* ===================================================================== *)
(** ** Expiry *)
(* ===================================================================== *)




(* ===================================================================== *)
(** ** What a call leaves alone *)
(* ===================================================================== *)

Lemma calculate_keys_differ parameter media context target_unit parameters
    media' context' :
  calculate_cache_key parameter media context target_unit
  <> batch_cache_key parameters media' context'.
Proof. unfold calculate_cache_key, batch_cache_key. intro E. discriminate E. Qed.

(** X9.  A call changes what the cache holds for no key but its own: for
    every other key the stored payload is the same after the call as
    before.  The keys of the two endpoints never coincide, so a call of
    [calculate_batch] never changes what [calculate_guidelines] will find,
    and conversely. *)
Theorem X9_calls_touch_only_their_own_entry :
  forall parameter media context target_unit parameters media' context'
         api_key api_key' w K',
    (K' <> calculate_cache_key parameter media context target_unit ->
     stored (snd (calculate_guidelines parameter media context target_unit
                    api_key w)) K'
     = stored w K')
    /\ (K' <> batch_cache_key parameters media' context' ->
        stored (snd (calculate_batch parameters media' context' api_key' w)) K'
        = stored w K')
    /\ stored (snd (calculate_batch parameters media' context' api_key' w))
         (calculate_cache_key parameter media context target_unit)
       = stored w (calculate_cache_key parameter media context target_unit)
    /\ stored (snd (calculate_guidelines parameter media context target_unit
                      api_key w))
         (batch_cache_key parameters media' context')
       = stored w (batch_cache_key parameters media' context').
Proof.
  intros parameter media context target_unit parameters media' context'
         api_key api_key' w K'.
  assert (G : forall K'',
             K'' <> calculate_cache_key parameter media context target_unit ->
             stored (snd (calculate_guidelines parameter media context
                            target_unit api_key w)) K''
             = stored w K'').
  { intros K'' N.
    destruct (read_error (cache w)) as [m | ] eqn:R.
    - rewrite (calculate_guidelines_unreadable _ _ _ _ _ _ _ R). reflexivity.
    - destruct (truthy (stored w (calculate_cache_key parameter media context
                                    target_unit))) eqn:T.
      + rewrite (calculate_guidelines_hit _ _ _ _ _ _ R T). reflexivity.
      + rewrite (calculate_guidelines_miss _ _ _ _ _ _ R T).
        apply fetch_outcome_frame. congruence. }
  assert (B : forall K'',
             K'' <> batch_cache_key parameters media' context' ->
             stored (snd (calculate_batch parameters media' context' api_key' w))
               K''
             = stored w K'').
  { intros K'' N.
    destruct (Nat.lt_ge_cases 50 (length parameters)) as [L | L].
    - rewrite (calculate_batch_too_many _ _ _ _ _ L). reflexivity.
    - destruct (read_error (cache w)) as [m | ] eqn:R.
      + rewrite (calculate_batch_unreadable _ _ _ _ _ _ L R). reflexivity.
      + destruct (truthy (stored w (batch_cache_key parameters media' context')))
          eqn:T.
        * rewrite (calculate_batch_hit _ _ _ _ _ L R T). reflexivity.
        * rewrite (calculate_batch_miss _ _ _ _ _ L R T).
          apply fetch_outcome_frame. congruence. }
  repeat split.
  - apply G.
  - apply B.
  - apply B. apply calculate_keys_differ.
  - apply G. intro E. symmetry in E. revert E. apply calculate_keys_differ.
Qed.

(** X10.  A hit leaves the cache exactly as it was: reading an entry does
    not extend its life. *)
Theorem X10_hit_does_not_refresh_entry :
  forall parameter media context target_unit parameters api_key w,
    (read_error (cache w) = None ->
     truthy (stored w (calculate_cache_key parameter media context target_unit))
     = true ->
     cache (snd (calculate_guidelines parameter media context target_unit
                   api_key w)) = cache w)
    /\ ((length parameters <= 50)%nat ->
        read_error (cache w) = None ->
        truthy (stored w (batch_cache_key parameters media context)) = true ->
        cache (snd (calculate_batch parameters media context api_key w))
        = cache w).
Proof.
  intros parameter media context target_unit parameters api_key w. split.
  - intros R T. rewrite (calculate_guidelines_hit _ _ _ _ _ _ R T). reflexivity.
  - intros L R T. rewrite (calculate_batch_hit _ _ _ _ _ L R T). reflexivity.
Qed.

(** X11.  A call sends at most one request and writes at most once, and it
    writes only after it has sent: there is no retry. *)
Theorem X11_at_most_one_request_per_call :
  forall parameter media context target_unit parameters api_key w,
    let tr := events_since w
                (snd (calculate_guidelines parameter media context target_unit
                        api_key w)) in
    let trb := events_since w
                 (snd (calculate_batch parameters media context api_key w)) in
    (length (set_expiries tr) <= length (sent tr) <= 1)%nat
    /\ (length (set_expiries trb) <= length (sent trb) <= 1)%nat.
Proof.
  intros parameter media context target_unit parameters api_key w. cbv zeta.
  split.
  - destruct (calculate_guidelines_events parameter media context target_unit
                api_key w) as [E | [E | [data E]]];
      cbv zeta in E; rewrite E; simpl; lia.
  - destruct (calculate_batch_events parameters media context api_key w)
      as [[_ E] | [_ [E | [E | [data E]]]]];
      cbv zeta in E; rewrite E; simpl; lia.
Qed.

(* ===================================================================== *)
(** ** The metadata functions *)
(* ===================================================================== *)

Lemma StatsResponse_new_not_timeout (payload : pyval) (e : exn) :
  StatsResponse_new payload = inl e -> is_httpx_timeout e = None.
Proof.
  unfold StatsResponse_new. intro V.
  repeat match type of V with
         | match ?x with _ => _ end = _ => destruct x
         end; inversion V; reflexivity.
Qed.

Lemma SourceResponse_new_not_timeout (source : pyval) (e : exn) :
  SourceResponse_new source = inl e -> is_httpx_timeout e = None.
Proof.
  unfold SourceResponse_new. intro V.
  repeat match type of V with
         | match ?x with _ => _ end = _ => destruct x
         end; inversion V; reflexivity.
Qed.

Lemma comprehension_error {A : Type} (f : pyval -> exn + A) (items : list pyval)
    (e : exn) :
  comprehension f items = inl e -> exists x, In x items /\ f x = inl e.
Proof.
  induction items as [ | x items IH]; simpl; [discriminate | ].
  destruct (f x) as [e' | a] eqn:F.
  - intro E. injection E as <-. exists x. auto.
  - destruct (comprehension f items) as [e' | l]; [ | discriminate].
    intro E. injection E as <-. destruct (IH eq_refl) as [y [I Fy]].
    exists y. auto.
Qed.

Lemma decode_sources_not_timeout (data : pyval) (e : exn) :
  decode_sources data = inl e -> is_httpx_timeout e = None.
Proof.
  unfold decode_sources. destruct (py_iter data) as [e' | sources] eqn:I.
  - intro E. injection E as <-.
    destruct data; simpl in I; try discriminate; injection I as <-; reflexivity.
  - intro E. apply comprehension_error in E as [x [_ E]].
    eapply SourceResponse_new_not_timeout. exact E.
Qed.

(** Unfolds the run of a metadata function down to the service. *)
Ltac run_get :=
  cbv beta iota zeta delta
    [health_check readiness_check list_parameters search_parameters list_media
     get_stats list_sources get_outcome get_request try_except_timeout bind
     client_get httpx_send check_status _handle_error lift timed_out raise ret
     response_json];
  change (dict_update [("User-Agent", USER_AGENT)] (@nil (string * string)))
    with [("User-Agent", USER_AGENT)];
  match goal with
  | |- context [remote ?h ?r] =>
      destruct (remote h r) as [resp | msg | msg];
      [ | reflexivity | reflexivity];
      (destruct (status_code resp =? 200)%Z; [ | reflexivity]);
      (destruct (json_body resp) as [data | ]; [ | reflexivity])
  end.

Lemma health_check_run (w : world) :
  health_check w = get_outcome (GUIDELINELY_API_BASE ++ "/health") None inr w.
Proof. run_get. reflexivity. Qed.

Lemma readiness_check_run (w : world) :
  readiness_check w = get_outcome (GUIDELINELY_API_BASE ++ "/ready") None inr w.
Proof. run_get. reflexivity. Qed.

Lemma list_parameters_run (w : world) :
  list_parameters w
  = get_outcome (GUIDELINELY_API_BASE ++ "/parameters") None inr w.
Proof. run_get. reflexivity. Qed.

Lemma search_parameters_run q media source document (w : world) :
  search_parameters q media source document w
  = get_outcome (GUIDELINELY_API_BASE ++ "/parameters/search")
      (Some (PDict (search_params q media source document))) inr w.
Proof. run_get. reflexivity. Qed.

Lemma list_media_run (w : world) :
  list_media w = get_outcome (GUIDELINELY_API_BASE ++ "/media") None inr w.
Proof. run_get. reflexivity. Qed.

Lemma get_stats_run (w : world) :
  get_stats w
  = get_outcome (GUIDELINELY_API_BASE ++ "/stats") None StatsResponse_new w.
Proof.
  run_get. cbv beta iota.
  destruct (StatsResponse_new data) eqn:V; [ | reflexivity].
  apply StatsResponse_new_not_timeout in V. rewrite V. reflexivity.
Qed.

Lemma list_sources_run (w : world) :
  list_sources w
  = get_outcome (GUIDELINELY_API_BASE ++ "/sources") None decode_sources w.
Proof.
  run_get. cbv beta iota.
  destruct (decode_sources data) as [e | l] eqn:V.
  - pose proof (decode_sources_not_timeout _ _ V) as N.
    unfold decode_sources in V.
    destruct (py_iter data) as [e' | sources]; cbv beta iota.
    + injection V as ->. rewrite N. reflexivity.
    + rewrite V. cbv beta iota. rewrite N. reflexivity.
  - unfold decode_sources in V.
    destruct (py_iter data) as [e' | sources]; [discriminate | ].
    cbv beta iota. rewrite V. reflexivity.
Qed.

(* ===================================================================== *)
(** ** What goes into the request and what into the key *)
(* ===================================================================== *)

(** X12.  A falsy argument is left out of the request but kept in the cache
    key.  On a cache that serves neither, a call without context and a call
    with an empty context send the same request, and so do a call without
    target unit and a call with the empty string as target unit; yet the
    two calls of each pair look up different cache keys, so neither is ever
    served from the entry of the other. *)
Theorem X12_falsy_arguments_same_request_other_key :
  forall parameter media context target_unit api_key w,
    let call c t := calculate_guidelines parameter media c t api_key w in
    let key c t := calculate_cache_key parameter media c t in
    read_error (cache w) = None ->
    truthy (stored w (key None target_unit)) = false ->
    truthy (stored w (key (Some (ContextDict [])) target_unit)) = false ->
    truthy (stored w (key context None)) = false ->
    truthy (stored w (key context (Some ""))) = false ->
    sent (events_since w (snd (call None target_unit)))
    = sent (events_since w (snd (call (Some (ContextDict [])) target_unit)))
    /\ lookup_key (events_since w (snd (call None target_unit)))
       <> lookup_key (events_since w (snd (call (Some (ContextDict []))
                                             target_unit)))
    /\ sent (events_since w (snd (call context None)))
       = sent (events_since w (snd (call context (Some ""))))
    /\ lookup_key (events_since w (snd (call context None)))
       <> lookup_key (events_since w (snd (call context (Some "")))).
Proof.
  intros parameter media context target_unit api_key w call key R T1 T2 T3 T4.
  subst call key. cbv beta in *.
  rewrite !calculate_guidelines_lookup_key.
  rewrite (calculate_guidelines_miss _ _ _ _ _ _ R T1),
    (calculate_guidelines_miss _ _ _ _ _ _ R T2),
    (calculate_guidelines_miss _ _ _ _ _ _ R T3),
    (calculate_guidelines_miss _ _ _ _ _ _ R T4).
  rewrite !fetch_outcome_sent.
  repeat split; try reflexivity;
    intro E; injection E; unfold str_dict_py; simpl; intros; discriminate.
Qed.

Lemma request_headers_lookup (key : option string) :
  dict_lookup (dict_update [("User-Agent", USER_AGENT)] (request_headers key))
    "X-API-KEY"
  = match key with
    | Some k => if (k =? "")%string then None else Some k
    | None => None
    end
  /\ dict_lookup (dict_update [("User-Agent", USER_AGENT)] (request_headers key))
       "User-Agent"
     = Some USER_AGENT.
Proof.
  destruct key as [k | ]; [ | split; reflexivity].
  unfold request_headers. simpl truthy.
  destruct (k =? "")%string; split; reflexivity.
Qed.

(** X13.  The API key travels in the [X-API-KEY] header and nowhere else:
    in every request that [calculate_guidelines] or [calculate_batch]
    sends, the header is present exactly when the resolved key is a
    non-empty string, the [User-Agent] header is present, and the method,
    the URL and the JSON body are made of the other arguments only. *)
Theorem X13_api_key_only_in_header :
  forall parameter media context target_unit parameters api_key w req,
    let header_of key :=
      match key with
      | Some k => if (k =? "")%string then None else Some k
      | None => None
      end in
    (In (HttpSend req)
       (events_since w
          (snd (calculate_guidelines parameter media context target_unit
                  api_key w))) ->
     dict_lookup (req_headers req) "X-API-KEY"
     = header_of (resolved_key api_key w)
     /\ dict_lookup (req_headers req) "User-Agent" = Some USER_AGENT
     /\ req_method req = "POST"
     /\ req_url req = (GUIDELINELY_API_BASE ++ "/calculate")%string
     /\ req_params req = None
     /\ req_json req
        = Some (PDict (calculate_body parameter media context target_unit)))
    /\ (In (HttpSend req)
          (events_since w
             (snd (calculate_batch parameters media context api_key w))) ->
        dict_lookup (req_headers req) "X-API-KEY"
        = header_of (resolved_key api_key w)
        /\ dict_lookup (req_headers req) "User-Agent" = Some USER_AGENT
        /\ req_method req = "POST"
        /\ req_url req = (GUIDELINELY_API_BASE ++ "/calculate/batch")%string
        /\ req_params req = None
        /\ req_json req = Some (PDict (batch_body parameters media context))).
Proof.
  intros parameter media context target_unit parameters api_key w req. cbv zeta.
  destruct (request_headers_lookup (resolved_key api_key w)) as [A U].
  split; intro I.
  - assert (E : req = calculate_request parameter media context target_unit
                        (resolved_key api_key w)).
    { destruct (calculate_guidelines_events parameter media context target_unit
                  api_key w) as [E | [E | [data E]]];
        cbv zeta in E; rewrite E in I; simpl in I;
        intuition (try discriminate; congruence). }
    subst req. unfold calculate_request. cbn [req_headers req_json req_url
      req_method req_params]. rewrite A, U. repeat split.
  - assert (E : req = batch_request parameters media context
                        (resolved_key api_key w)).
    { destruct (calculate_batch_events parameters media context api_key w)
        as [[_ E] | [_ [E | [E | [data E]]]]];
        cbv zeta in E; rewrite E in I; simpl in I;
        intuition (try discriminate; congruence). }
    subst req. unfold batch_request. cbn [req_headers req_json req_url
      req_method req_params]. rewrite A, U. repeat split.
Qed.

(** X14.  The query of [search_parameters] always has [q], also when it is
    empty; each of [media], [source] and [document] is in the query exactly
    when it is a non-empty list, so an empty list filters as little as no
    list. *)
Theorem X14_search_query_filters :
  forall q media source document,
    let params := search_params q media source document in
    let given (l : option (list string)) :=
      match l with
      | Some (x :: l') => Some (PList (map PStr (x :: l')))
      | _ => None
      end in
    dict_lookup params "q" = Some (PStr q)
    /\ dict_lookup params "media" = given media
    /\ dict_lookup params "source" = given source
    /\ dict_lookup params "document" = given document
    /\ search_params q (Some []) source document
       = search_params q None source document
    /\ search_params q media (Some []) document
       = search_params q media None document
    /\ search_params q media source (Some [])
       = search_params q media source None.
Proof.
  intros q [[ | m ms] | ] [[ | s ss] | ] [[ | d ds] | ]; cbv zeta;
    repeat split.
Qed.

(* ===================================================================== *)
(** ** The metadata functions: one request, no cache *)
(* ===================================================================== *)

Lemma get_outcome_world {A : Type} url params (decode : pyval -> exn + A) w :
  snd (get_outcome url params decode w)
  = log (HttpSend (get_request url params)) w.
Proof.
  unfold get_outcome.
  destruct (remote _ _) as [resp | m | m]; try reflexivity.
  destruct (status_code resp =? 200)%Z; try reflexivity.
  destruct (json_body resp); reflexivity.
Qed.

Lemma get_outcome_api_error {A : Type} url params (decode : pyval -> exn + A)
    w resp :
  remote (sent (trace w)) (get_request url params) = Responded resp ->
  status_code resp <> 200%Z ->
  fst (get_outcome url params decode w)
  = inl (GuidelinelyAPIError (error_message resp) (status_code resp)).
Proof.
  intros O S. unfold get_outcome. rewrite O.
  apply Z.eqb_neq in S. rewrite S. reflexivity.
Qed.

Lemma get_outcome_timeout {A : Type} url params (decode : pyval -> exn + A)
    w msg :
  remote (sent (trace w)) (get_request url params) = TimedOut msg ->
  fst (get_outcome url params decode w)
  = inl (GuidelinelyTimeoutError ("Request timed out: " ++ msg)).
Proof. intro O. unfold get_outcome. rewrite O. reflexivity. Qed.

Lemma get_outcome_ok {A : Type} url params (decode : pyval -> exn + A)
    w resp data :
  remote (sent (trace w)) (get_request url params) = Responded resp ->
  status_code resp = 200%Z ->
  json_body resp = Some data ->
  fst (get_outcome url params decode w) = decode data.
Proof. intros O S B. unfold get_outcome. rewrite O, S, B. reflexivity. Qed.

(** X15.  The metadata functions never use the cache: each of them sends
    exactly one GET request, to its own path, and leaves the cache as it
    was, whatever the service answers. *)
Theorem X15_metadata_calls_bypass_cache :
  forall w q media source document,
    let get path params := [HttpSend (get_request (GUIDELINELY_API_BASE ++ path)
                                        params)] in
    (cache (snd (health_check w)) = cache w
     /\ events_since w (snd (health_check w)) = get "/health" None)
    /\ (cache (snd (readiness_check w)) = cache w
        /\ events_since w (snd (readiness_check w)) = get "/ready" None)
    /\ (cache (snd (list_parameters w)) = cache w
        /\ events_since w (snd (list_parameters w)) = get "/parameters" None)
    /\ (cache (snd (search_parameters q media source document w)) = cache w
        /\ events_since w (snd (search_parameters q media source document w))
           = get "/parameters/search"
               (Some (PDict (search_params q media source document))))
    /\ (cache (snd (list_media w)) = cache w
        /\ events_since w (snd (list_media w)) = get "/media" None)
    /\ (cache (snd (list_sources w)) = cache w
        /\ events_since w (snd (list_sources w)) = get "/sources" None)
    /\ (cache (snd (get_stats w)) = cache w
        /\ events_since w (snd (get_stats w)) = get "/stats" None).
Proof.
  intros w q media source document. cbv zeta.
  rewrite health_check_run, readiness_check_run, list_parameters_run,
    search_parameters_run, list_media_run, list_sources_run, get_stats_run.
  rewrite !get_outcome_world, !events_since_log1.
  repeat split.
Qed.

(** X16.  When the service answers the request of a metadata function
    with a status other than 200, the function raises
    [GuidelinelyAPIError] with the message extracted from the response and
    that status code. *)
Theorem X16_metadata_api_errors :
  forall w resp,
    status_code resp <> 200%Z ->
    let err {A : Type} : exn + A :=
      inl (GuidelinelyAPIError (error_message resp) (status_code resp)) in
    (answers w "/health" (Responded resp) -> fst (health_check w) = err)
    /\ (answers w "/ready" (Responded resp) -> fst (readiness_check w) = err)
    /\ (answers w "/parameters" (Responded resp) ->
        fst (list_parameters w) = err)
    /\ (answers w "/media" (Responded resp) -> fst (list_media w) = err)
    /\ (answers w "/sources" (Responded resp) -> fst (list_sources w) = err)
    /\ (answers w "/stats" (Responded resp) -> fst (get_stats w) = err).
Proof.
  intros w resp S. cbv zeta. unfold answers.
  rewrite health_check_run, readiness_check_run, list_parameters_run,
    list_media_run, list_sources_run, get_stats_run.
  repeat split; intro O; now apply get_outcome_api_error.
Qed.

(** X17.  When the request of a metadata function times out, the function
    raises [GuidelinelyTimeoutError] with "Request timed out: " before the
    reason. *)
Theorem X17_metadata_timeouts :
  forall w msg,
    let err {A : Type} : exn + A :=
      inl (GuidelinelyTimeoutError ("Request timed out: " ++ msg)) in
    (answers w "/health" (TimedOut msg) -> fst (health_check w) = err)
    /\ (answers w "/ready" (TimedOut msg) -> fst (readiness_check w) = err)
    /\ (answers w "/parameters" (TimedOut msg) -> fst (list_parameters w) = err)
    /\ (answers w "/media" (TimedOut msg) -> fst (list_media w) = err)
    /\ (answers w "/sources" (TimedOut msg) -> fst (list_sources w) = err)
    /\ (answers w "/stats" (TimedOut msg) -> fst (get_stats w) = err).
Proof.
  intros w msg. cbv zeta. unfold answers.
  rewrite health_check_run, readiness_check_run, list_parameters_run,
    list_media_run, list_sources_run, get_stats_run.
  repeat split; intro O; now apply get_outcome_timeout.
Qed.

(** X18.  [search_parameters] returns the JSON body of a 200 response as it
    is, and raises the API error of any other status; its request carries
    the query built from its arguments. *)
Theorem X18_search_parameters_result :
  forall q media source document w resp,
    remote (sent (trace w))
      (get_request (GUIDELINELY_API_BASE ++ "/parameters/search")
         (Some (PDict (search_params q media source document))))
    = Responded resp ->
    let run := search_parameters q media source document w in
    (forall data,
        status_code resp = 200%Z -> json_body resp = Some data ->
        fst run = inr data)
    /\ (status_code resp <> 200%Z ->
        fst run
        = inl (GuidelinelyAPIError (error_message resp) (status_code resp))).
Proof.
  intros q media source document w resp O run. subst run.
  rewrite search_parameters_run. split.
  - intros data S B. now rewrite (get_outcome_ok _ _ _ _ _ _ O S B).
  - intro S. now apply get_outcome_api_error.
Qed.

Lemma comprehension_ok {A : Type} (f : pyval -> exn + A) (items : list pyval)
    (l : list A) :
  comprehension f items = inr l -> Forall2 (fun x a => f x = inr a) items l.
Proof.
  revert l. induction items as [ | x items IH]; simpl; intros l E.
  - injection E as <-. constructor.
  - destruct (f x) as [e | a] eqn:F; [discriminate | ].
    destruct (comprehension f items) as [e | l']; [discriminate | ].
    injection E as <-. constructor; [exact F | now apply IH].
Qed.

(** X19.  [list_sources] is all or nothing and keeps the order: for a 200
    response whose body is a JSON array, it returns one [SourceResponse]
    per element, in the order of the array, each the validation of its
    element; or it raises the error of an element that does not validate.
    A body that is [null], a number or a boolean is a [TypeError]. *)
Theorem X19_list_sources_all_or_nothing :
  forall w resp body,
    remote (sent (trace w)) (get_request (GUIDELINELY_API_BASE ++ "/sources") None)
    = Responded resp ->
    status_code resp = 200%Z ->
    json_body resp = Some body ->
    match body with
    | PList items =>
        match fst (list_sources w) with
        | inr sources =>
            Forall2 (fun x s => SourceResponse_new x = inr s) items sources
        | inl e => exists x, In x items /\ SourceResponse_new x = inl e
        end
    | PNone | PBool _ | PInt _ | PFloat _ =>
        fst (list_sources w) = inl (TypeError "object is not iterable")
    | _ => True
    end.
Proof.
  intros w resp body O S B.
  rewrite list_sources_run, (get_outcome_ok _ _ _ _ _ _ O S B).
  unfold decode_sources.
  destruct body as [ | b | z | f | s | items | d]; simpl; try reflexivity;
    try exact I.
  destruct (comprehension SourceResponse_new items) as [e | sources] eqn:C.
  - now apply comprehension_error.
  - now apply comprehension_ok.
Qed.

(** X20.  [get_stats] needs a JSON object with all four counters: for a 200
    response whose body lacks one of them it raises the validation error,
    and for a body that is not an object a [TypeError]; with the four
    counters valid it returns them. *)
Theorem X20_get_stats_needs_all_counters :
  forall w resp body,
    remote (sent (trace w)) (get_request (GUIDELINELY_API_BASE ++ "/stats") None)
    = Responded resp ->
    status_code resp = 200%Z ->
    json_body resp = Some body ->
    match body with
    | PDict d =>
        (forall field,
            In field ["total_parameters"; "total_guidelines"; "total_sources";
                      "total_documents"] ->
            dict_lookup d field = None ->
            fst (get_stats w) = inl (ValidationError "StatsResponse"))
        /\ (forall a b c e a' b' c' e',
               dict_lookup d "total_parameters" = Some a ->
               dict_lookup d "total_guidelines" = Some b ->
               dict_lookup d "total_sources" = Some c ->
               dict_lookup d "total_documents" = Some e ->
               validate_int a = Some a' -> validate_int b = Some b' ->
               validate_int c = Some c' -> validate_int e = Some e' ->
               fst (get_stats w) = inr (mkStatsResponse a' b' c' e'))
    | _ =>
        fst (get_stats w)
        = inl (TypeError "argument after ** must be a mapping")
    end.
Proof.
  intros w resp body O S B.
  rewrite get_stats_run, (get_outcome_ok _ _ _ _ _ _ O S B).
  destruct body as [ | b | z | f | s | items | d]; try reflexivity.
  unfold StatsResponse_new. split.
  - intros field I N. simpl in I.
    destruct I as [<- | [<- | [<- | [<- | []]]]]; rewrite N;
      repeat match goal with
             | |- context [match dict_lookup ?d ?k with _ => _ end] =>
                 destruct (dict_lookup d k)
             end; reflexivity.
  - intros a b c e a' b' c' e' A Bb C E A' B' C' E'.
    rewrite A, Bb, C, E, A', B', C', E'. reflexivity.
Qed.

(* ===================================================================== *)
(** ** [cache.py]: write, then read *)
(* ===================================================================== *)


(* ===================================================================== *)
(** ** [models.py]: what a validated response holds *)
(* ===================================================================== *)

Lemma validate_results_ok (items : list pyval) (gs : list GuidelineResponse) :
  validate_results items = Some gs ->
  Forall2 (fun x g => validate_GuidelineResponse x = Some g) items gs.
Proof.
  revert gs. induction items as [ | x items IH]; simpl; intros gs E.
  - injection E as <-. constructor.
  - destruct (validate_GuidelineResponse x) as [g | ] eqn:V; [ | discriminate].
    destruct (validate_results items) as [gs' | ]; [ | discriminate].
    injection E as <-. constructor; [exact V | now apply IH].
Qed.

(** X22.  A [CalculationResponse] is a structural image of its payload:
    when a payload validates, it is a JSON object whose [results] is an
    array, validated element by element in its order (so there are as many
    results as elements), whose [context] is an object that the response
    holds unchanged, and whose [total_count] validates to the count of the
    response.  Nothing is computed from the results: the count is the
    payload's, not the number of results. *)
Theorem X22_response_mirrors_payload :
  forall payload r,
    CalculationResponse_new payload = inr r ->
    exists kwargs items n,
      payload = PDict kwargs
      /\ dict_lookup kwargs "results" = Some (PList items)
      /\ dict_lookup kwargs "context" = Some (PDict (context r))
      /\ dict_lookup kwargs "total_count" = Some n
      /\ Forall2 (fun x g => validate_GuidelineResponse x = Some g)
           items (results r)
      /\ length (results r) = length items
      /\ validate_int n = Some (total_count r).
Proof.
  intros payload r V. unfold CalculationResponse_new in V.
  destruct payload as [ | | | | | | kwargs]; try discriminate.
  destruct (dict_lookup kwargs "results") as [[ | | | | | items | ] | ] eqn:R;
    try discriminate.
  destruct (dict_lookup kwargs "context") as [[ | | | | | | c] | ] eqn:C;
    try discriminate.
  destruct (dict_lookup kwargs "total_count") as [n | ] eqn:N; try discriminate.
  destruct (validate_results items) as [gs | ] eqn:G; try discriminate.
  destruct (validate_int n) as [n' | ] eqn:I; try discriminate.
  injection V as <-. simpl.
  exists kwargs, items, n.
  pose proof (validate_results_ok _ _ G) as F.
  repeat split; try assumption; try reflexivity.
  symmetry. eapply Forall2_length. exact F.
Qed.

(* ===================================================================== *)
(** ** The batch endpoint behaves as the single one *)
(* ===================================================================== *)


(** X24.  When the cache has nothing to serve and the service answers the
    request of [calculate_batch] with a status other than 200, the call
    raises [GuidelinelyAPIError] with the message of the response and that
    status code, and the cache is left as it was. *)
Theorem X24_batch_remote_fault_is_not_cached :
  forall parameters media context api_key w resp,
    let K := batch_cache_key parameters media context in
    let run := calculate_batch parameters media context api_key w in
    (length parameters <= 50)%nat ->
    read_error (cache w) = None ->
    truthy (stored w K) = false ->
    remote (sent (trace w))
      (batch_request parameters media context (resolved_key api_key w))
    = Responded resp ->
    status_code resp <> 200%Z ->
    fst run = inl (GuidelinelyAPIError (error_message resp) (status_code resp))
    /\ cache (snd run) = cache w
    /\ set_expiries (events_since w (snd run)) = [].
Proof.
  intros parameters media context api_key w resp K run L R T O S. subst run.
  rewrite (calculate_batch_miss _ _ _ _ _ L R T). fold K.
  unfold fetch_outcome. rewrite O. apply Z.eqb_neq in S. rewrite S.
  cbn [fst snd]. rewrite events_since_log2. repeat split.
Qed.

(** X25.  A falsy body never serves a later call.  When the service answers
    200 with a falsy JSON body ([null], an empty object, ...),
    [calculate_guidelines] stores it and raises the error of its
    validation; the same call made again finds the stored body falsy and
    sends the request again. *)
Theorem X25_falsy_body_is_fetched_again :
  forall parameter media context target_unit api_key w resp data,
    let K := calculate_cache_key parameter media context target_unit in
    let req := calculate_request parameter media context target_unit
                 (resolved_key api_key w) in
    let call := calculate_guidelines parameter media context target_unit
                  api_key in
    read_error (cache w) = None ->
    write_error (cache w) = None ->
    truthy (stored w K) = false ->
    remote (sent (trace w)) req = Responded resp ->
    status_code resp = 200%Z ->
    json_body resp = Some data ->
    truthy data = false ->
    (exists e, fst (call w) = inl e)
    /\ events_since w (snd (call w))
       = [CacheGet K; HttpSend req; CacheSet K data (Some 86400%Z)]
    /\ sent (events_since (snd (call w)) (snd (call (snd (call w))))) = [req].
Proof.
  intros parameter media context target_unit api_key w resp data K req call
         R W T O S B F.
  assert (E : call w
              = (CalculationResponse_new data,
                 with_cache
                   (mkCache (put_row (rows (cache w)) K data
                               (Some (clock w + DEFAULT_TTL)%Z))
                      (read_error (cache w)) None)
                   (log (CacheSet K data (Some DEFAULT_TTL))
                      (log (HttpSend req) (log (CacheGet K) w))))).
  { subst call. cbv beta.
    rewrite (calculate_guidelines_miss _ _ _ _ _ _ R T).
    fold K. fold req. now rewrite (fetch_stored _ _ _ _ _ O S B W). }
  rewrite E. cbn [fst snd].
  set (w1 := with_cache _ _).
  repeat split.
  - destruct (CalculationResponse_new data) as [e | r] eqn:V.
    + exists e. reflexivity.
    + apply CalculationResponse_new_truthy in V. congruence.
  - unfold w1. rewrite events_since_with_cache. apply events_since_log3.
  - assert (S1 : stored w1 K = data)
      by (subst w1; apply stored_after_put; reflexivity).
    assert (R1 : read_error (cache w1) = None) by exact R.
    assert (T1 : truthy (stored w1 K) = false) by (rewrite S1; exact F).
    subst call. cbv beta.
    rewrite (calculate_guidelines_miss _ _ _ _ _ _ R1 T1).
    rewrite fetch_outcome_sent. reflexivity.
Qed.

End Client.

(* ===================================================================== *)
(** ** The theorems at work on concrete calls *)
(* ===================================================================== *)

Import Doubles.




Lemma C2_witness :
  (50 < length (names 51))%nat
  /\ length (names 50) = 50%nat
  /\ calculate_batch remote_ok pyval keep strict_int (names 51) "surface_water"
       None None fresh
     = (inl (ValueError "Maximum 50 parameters per batch request"), fresh)
  /\ lookup_key (events_since fresh
                   (snd (calculate_batch remote_ok pyval keep strict_int
                           (names 50) "surface_water" None None fresh)))
     = Some (batch_cache_key (names 50) "surface_water" None).
Proof.
  assert (L51 : (50 < length (names 51))%nat) by (simpl; lia).
  assert (L50 : length (names 50) = 50%nat) by reflexivity.
  split; [exact L51 | ]. split; [exact L50 | ]. split.
  - exact (proj1 (C2_batch_limit_checked_before_any_effect remote_ok pyval keep
                    strict_int (names 51) "surface_water" None None fresh) L51).
  - exact (proj2 (proj2 (C2_batch_limit_checked_before_any_effect remote_ok pyval
                           keep strict_int (names 50) "surface_water" None None
                           fresh) L50)).
Defined.

(** C3, as the claim states it, fails: with an empty parameter list and an
    empty media string the call is not rejected; it looks up the cache,
    sends the request and returns the response of the service. *)
Lemma C3_empty_input_counterexample :
  let run := calculate_batch remote_ok pyval keep strict_int [] "" None None
               fresh in
  fst run = inr (mkCalculationResponse pyval [] [] 0)
  /\ events_since fresh (snd run)
     = [ CacheGet (batch_cache_key [] "" None);
         HttpSend (batch_request [] "" None None);
         CacheSet (batch_cache_key [] "" None) payload_ok (Some 86400%Z) ].
Proof. cbv zeta. split; reflexivity. Qed.

Lemma C3_witness :
  (@nil parameter_arg = [] \/ "" = "")
  /\ (length (@nil parameter_arg) <= 50)%nat
  /\ sent (events_since fresh
             (snd (calculate_batch remote_ok pyval keep strict_int [] "" None
                     None fresh)))
     = [batch_request [] "" None None].
Proof.
  assert (E : @nil parameter_arg = [] \/ "" = "") by (left; reflexivity).
  assert (L : (length (@nil parameter_arg) <= 50)%nat) by (simpl; lia).
  split; [exact E | ]. split; [exact L | ].
  exact (proj2 (proj2 (C3_batch_accepts_empty_media_and_parameters remote_ok pyval
                         keep strict_int [] "" None None fresh E L))
           eq_refl eq_refl).
Defined.


Lemma C6_witness :
  let call := calculate_guidelines remote_500 pyval keep strict_int "Aluminum"
                "surface_water" None None None in
  fst (call fresh) = inl (GuidelinelyAPIError (PStr "Internal error") 500)
  /\ cache (snd (call fresh)) = cache fresh
  /\ length (sent (trace (snd (call (snd (call fresh)))))) = 2%nat.
Proof.
  cbv zeta.
  assert (S : (500 <> 200)%Z) by discriminate.
  destruct (C6_remote_fault_is_raised_and_not_cached remote_500 pyval keep
              strict_int "Aluminum" "surface_water" None None None fresh
              (mkResponse 500 (Some (PDict [("detail", PStr "Internal error")])))
              eq_refl eq_refl eq_refl S) as (E & C & _ & _).
  split; [exact E | ]. split; [exact C | reflexivity].
Defined.

(** C7, as the claim states it, fails: with an unreadable cache the call
    ends with the storage error, and the service, which would have
    answered, is never asked. *)
Lemma C7_storage_error_counterexample :
  let single := calculate_guidelines remote_ok pyval keep strict_int "Aluminum"
                  "surface_water" None None None unreadable in
  let batch := calculate_batch remote_ok pyval keep strict_int (names 3)
                 "surface_water" None None unreadable in
  fst single = inl (StorageError "disk I/O error")
  /\ sent (trace (snd single)) = []
  /\ fst batch = inl (StorageError "disk I/O error")
  /\ sent (trace (snd batch)) = [].
Proof. cbv zeta. repeat split. Qed.

Lemma C7_witness :
  read_error (cache unreadable) = Some "disk I/O error"
  /\ (length (names 3) <= 50)%nat
  /\ fst (calculate_guidelines remote_ok pyval keep strict_int "Aluminum"
            "surface_water" None None None unreadable)
     = inl (StorageError "disk I/O error")
  /\ fst (calculate_batch remote_ok pyval keep strict_int (names 3)
            "surface_water" None None unreadable)
     = inl (StorageError "disk I/O error").
Proof.
  assert (R : read_error (cache unreadable) = Some "disk I/O error")
    by reflexivity.
  assert (L : (length (names 3) <= 50)%nat) by (simpl; lia).
  destruct (C7_storage_error_on_read_propagates remote_ok pyval keep strict_int
              "Aluminum" "surface_water" None None (names 3) None unreadable _
              R L) as (A & _ & B & _).
  repeat split; assumption.
Defined.


Lemma C10_witness :
  let K := calculate_cache_key "Aluminum" "surface_water" None None in
  let KB := batch_cache_key (names 3) "surface_water" None in
  truthy (PDict []) = false
  /\ sent (events_since (holding K (PDict []))
             (snd (calculate_guidelines remote_ok pyval keep strict_int
                     "Aluminum" "surface_water" None None None
                     (holding K (PDict [])))))
     = [calculate_request "Aluminum" "surface_water" None None None]
  /\ sent (events_since (holding KB (PDict []))
             (snd (calculate_batch remote_ok pyval keep strict_int (names 3)
                     "surface_water" None None (holding KB (PDict [])))))
     = [batch_request (names 3) "surface_water" None None].
Proof.
  cbv zeta.
  assert (L : (length (names 3) <= 50)%nat) by (simpl; lia).
  split; [reflexivity | ]. split.
  - exact (proj1 (C10_falsy_payload_is_a_miss remote_ok pyval keep strict_int
                    "Aluminum" "surface_water" None None (names 3) None
                    (holding (calculate_cache_key "Aluminum" "surface_water"
                                None None) (PDict [])))
             (mkRow (calculate_cache_key "Aluminum" "surface_water" None None)
                (PDict []) None)
             eq_refl eq_refl eq_refl).
  - exact (proj2 (C10_falsy_payload_is_a_miss remote_ok pyval keep strict_int
                    "Aluminum" "surface_water" None None (names 3) None
                    (holding (batch_cache_key (names 3) "surface_water" None)
                       (PDict [])))
             (mkRow (batch_cache_key (names 3) "surface_water" None)
                (PDict []) None)
             L eq_refl eq_refl eq_refl).
Defined.

(* ===================================================================== *)
(** ** The further theorems at work *)
(* ===================================================================== *)

Lemma X2_witness :
  error_message
    (mkResponse 422 (Some (PDict [ ("detail", PStr "threshold must be between 0 and 1");
                                   ("message", PStr "ignored") ])))
  = PStr "threshold must be between 0 and 1"
  /\ error_message
       (mkResponse 500 (Some (PDict [ ("detail", PStr "");
                                      ("message", PStr "Database error") ])))
     = PStr "Database error".
Proof.
  split.
  - exact (proj1 (X2_detail_before_message 422
                    [ ("detail", PStr "threshold must be between 0 and 1");
                      ("message", PStr "ignored") ]
                    (PStr "threshold must be between 0 and 1") PNone)
             eq_refl eq_refl).
  - exact (proj2 (X2_detail_before_message 500
                    [ ("detail", PStr ""); ("message", PStr "Database error") ]
                    PNone (PStr "Database error"))
             (or_intror (ex_intro _ (PStr "") (conj eq_refl eq_refl)))
             eq_refl eq_refl).
Defined.

Lemma X3_witness :
  let self := BatchCalculateRequest.make (repeat (inl "Copper") 51)
                "surface_water" None in
  length (names 51) = length (BatchCalculateRequest.parameters self)
  /\ (fst (calculate_batch remote_ok pyval keep strict_int (names 51)
             "surface_water" None None fresh)
      = inl (ValueError "Maximum 50 parameters per batch request")
      <-> BatchCalculateRequest.validate_parameter_count self
          = inl (ValueError "Maximum 50 parameters per batch request")).
Proof.
  cbv zeta.
  assert (E : length (names 51)
              = length (BatchCalculateRequest.parameters
                          (BatchCalculateRequest.make (repeat (inl "Copper") 51)
                             "surface_water" None))) by reflexivity.
  split; [exact E | ].
  exact (proj2 (X3_model_and_client_agree_on_limit remote_ok pyval keep strict_int
                  _ (names 51) "surface_water" None None fresh
                  "Maximum 50 parameters per batch request" E)).
Defined.

Lemma X4_witness :
  fst (calculate_guidelines remote_slow pyval keep strict_int "Aluminum"
         "surface_water" None None None fresh)
  = inl (GuidelinelyTimeoutError "Request timed out: timed out")
  /\ fst (calculate_batch remote_slow pyval keep strict_int (names 3)
            "surface_water" None None fresh)
     = inl (GuidelinelyTimeoutError "Request timed out: timed out").
Proof.
  assert (L : (length (names 3) <= 50)%nat) by (simpl; lia).
  destruct (X4_timeout_is_reported_and_not_cached remote_slow pyval keep
              strict_int "Aluminum" "surface_water" None None (names 3) None
              fresh "timed out") as [A B].
  split.
  - exact (proj1 (A eq_refl eq_refl eq_refl)).
  - exact (proj1 (B L eq_refl eq_refl eq_refl)).
Defined.

Lemma X5_witness :
  let K := calculate_cache_key "Aluminum" "surface_water" None None in
  In (CacheSet K payload_ok (Some 86400%Z))
    (events_since fresh
       (snd (calculate_guidelines remote_ok pyval keep strict_int "Aluminum"
               "surface_water" None None None fresh)))
  /\ exists resp,
       remote_ok (sent (trace fresh))
         (calculate_request "Aluminum" "surface_water" None None
            (resolved_key None fresh)) = Responded resp
       /\ status_code resp = 200%Z /\ json_body resp = Some payload_ok.
Proof.
  cbv zeta.
  assert (I : In (CacheSet (calculate_cache_key "Aluminum" "surface_water" None None)
                    payload_ok (Some 86400%Z))
                (events_since fresh
                   (snd (calculate_guidelines remote_ok pyval keep strict_int
                           "Aluminum" "surface_water" None None None fresh))))
    by (right; right; left; reflexivity).
  split; [exact I | ].
  exact (proj2 (proj2 (proj1 (X5_only_successful_payloads_are_cached remote_ok
                                pyval keep strict_int "Aluminum" "surface_water"
                                None None [] None fresh _ _ _) I))).
Defined.


Lemma X7_witness :
  fst (calculate_guidelines remote_ok pyval keep strict_int "Aluminum"
         "surface_water" None None None unwritable)
  = inl (StorageError "database or disk is full")
  /\ length (sent (trace (snd (calculate_guidelines remote_ok pyval keep
                                 strict_int "Aluminum" "surface_water" None
                                 None None unwritable)))) = 1%nat.
Proof.
  split.
  - exact (proj1 (X7_storage_error_on_write_propagates remote_ok pyval keep
                    strict_int "Aluminum" "surface_water" None None None
                    unwritable (mkResponse 200 (Some payload_ok)) payload_ok
                    "database or disk is full"
                    eq_refl eq_refl eq_refl eq_refl eq_refl eq_refl)).
  - reflexivity.
Defined.


Lemma X9_witness :
  let w := holding (PStr "other") payload_ok in
  PStr "other" <> calculate_cache_key "Aluminum" "surface_water" None None
  /\ stored (snd (calculate_guidelines remote_ok pyval keep strict_int
                    "Aluminum" "surface_water" None None None w))
       (PStr "other")
     = payload_ok.
Proof.
  cbv zeta.
  assert (N : PStr "other"
              <> calculate_cache_key "Aluminum" "surface_water" None None)
    by discriminate.
  split; [exact N | ].
  exact (proj1 (X9_calls_touch_only_their_own_entry remote_ok pyval keep
                  strict_int "Aluminum" "surface_water" None None [] ""
                  None None None (holding (PStr "other") payload_ok)
                  (PStr "other")) N).
Defined.

Lemma X10_witness :
  let K := calculate_cache_key "Aluminum" "surface_water" None None in
  let KB := batch_cache_key (names 3) "surface_water" None in
  (length (names 3) <= 50)%nat
  /\ cache (snd (calculate_guidelines remote_ok pyval keep strict_int
                   "Aluminum" "surface_water" None None None
                   (holding K payload_ok)))
     = cache (holding K payload_ok)
  /\ cache (snd (calculate_batch remote_ok pyval keep strict_int (names 3)
                   "surface_water" None None (holding KB payload_ok)))
     = cache (holding KB payload_ok).
Proof.
  cbv zeta.
  assert (L : (length (names 3) <= 50)%nat) by (simpl; lia).
  split; [exact L | ]. split.
  - exact (proj1 (X10_hit_does_not_refresh_entry remote_ok pyval keep strict_int
                    "Aluminum" "surface_water" None None (names 3) None
                    (holding (calculate_cache_key "Aluminum" "surface_water"
                                None None) payload_ok))
             eq_refl eq_refl).
  - exact (proj2 (X10_hit_does_not_refresh_entry remote_ok pyval keep strict_int
                    "Aluminum" "surface_water" None None (names 3) None
                    (holding (batch_cache_key (names 3) "surface_water" None)
                       payload_ok))
             L eq_refl eq_refl).
Defined.

Lemma X12_witness :
  let call c := calculate_guidelines remote_ok pyval keep strict_int "Aluminum"
                  "surface_water" c None None fresh in
  sent (events_since fresh (snd (call None)))
  = sent (events_since fresh (snd (call (Some (ContextDict [])))))
  /\ lookup_key (events_since fresh (snd (call None)))
     <> lookup_key (events_since fresh (snd (call (Some (ContextDict []))))).
Proof.
  cbv zeta.
  destruct (X12_falsy_arguments_same_request_other_key remote_ok pyval keep
              strict_int "Aluminum" "surface_water" None None None fresh
              eq_refl eq_refl eq_refl eq_refl eq_refl) as (A & B & _).
  split; [exact A | exact B].
Defined.

Lemma X13_witness :
  let req := calculate_request "Aluminum" "surface_water" None None
               (Some "secret") in
  In (HttpSend req)
    (events_since fresh
       (snd (calculate_guidelines remote_ok pyval keep strict_int "Aluminum"
               "surface_water" None None (Some "secret") fresh)))
  /\ dict_lookup (req_headers req) "X-API-KEY" = Some "secret"
  /\ req_json req
     = Some (PDict [("parameter", PStr "Aluminum");
                    ("media", PStr "surface_water")]).
Proof.
  cbv zeta.
  assert (I : In (HttpSend (calculate_request "Aluminum" "surface_water" None
                              None (Some "secret")))
                (events_since fresh
                   (snd (calculate_guidelines remote_ok pyval keep strict_int
                           "Aluminum" "surface_water" None None (Some "secret")
                           fresh))))
    by (right; left; reflexivity).
  split; [exact I | ].
  destruct (proj1 (X13_api_key_only_in_header remote_ok pyval keep strict_int
                     "Aluminum" "surface_water" None None [] (Some "secret")
                     fresh _) I) as (A & _ & _ & _ & _ & B).
  split; [exact A | exact B].
Defined.

Lemma X16_witness :
  fst (readiness_check remote_503 fresh)
  = inl (GuidelinelyAPIError (PStr "API request failed") 503)
  /\ fst (get_stats remote_503 strict_int fresh)
     = inl (GuidelinelyAPIError (PStr "API request failed") 503).
Proof.
  assert (S : (status_code response_503 <> 200)%Z) by discriminate.
  split.
  - exact (proj1 (proj2 (X16_metadata_api_errors remote_503 strict_int fresh
                           response_503 S)) eq_refl).
  - exact (proj2 (proj2 (proj2 (proj2 (proj2
             (X16_metadata_api_errors remote_503 strict_int fresh response_503
                S))))) eq_refl).
Defined.

Lemma X17_witness :
  fst (list_media remote_slow fresh)
  = inl (GuidelinelyTimeoutError "Request timed out: timed out").
Proof.
  exact (proj1 (proj2 (proj2 (proj2
           (X17_metadata_timeouts remote_slow strict_int fresh "timed out"))))
           eq_refl).
Defined.

Lemma X18_witness :
  fst (search_parameters remote_names "ammon" (Some ["surface_water"]) None
         (Some []) fresh)
  = inr (PList [PStr "Ammonia"; PStr "Ammonium"])
  /\ req_params
       (get_request (GUIDELINELY_API_BASE ++ "/parameters/search")
          (Some (PDict (search_params "ammon" (Some ["surface_water"]) None
                          (Some [])))))
     = Some (PDict [("q", PStr "ammon");
                    ("media", PList [PStr "surface_water"])]).
Proof.
  split; [ | reflexivity].
  exact (proj1 (X18_search_parameters_result remote_names "ammon"
                  (Some ["surface_water"]) None (Some []) fresh
                  (mkResponse 200 (Some (PList [PStr "Ammonia"; PStr "Ammonium"])))
                  eq_refl)
           (PList [PStr "Ammonia"; PStr "Ammonium"]) eq_refl eq_refl).
Defined.

Lemma X19_witness :
  fst (list_sources remote_sources strict_int fresh)
  = inr [mkSourceResponse 1 "CCME" "CCME"
           [mkSourceDocument 7 "Water Quality" None None]]
  /\ Forall2 (fun x s => SourceResponse_new strict_int x = inr s) [source_ccme]
       [mkSourceResponse 1 "CCME" "CCME"
          [mkSourceDocument 7 "Water Quality" None None]].
Proof.
  split; [reflexivity | ].
  exact (X19_list_sources_all_or_nothing remote_sources strict_int fresh
           (mkResponse 200 (Some (PList [source_ccme]))) (PList [source_ccme])
           eq_refl eq_refl eq_refl).
Defined.

Lemma X20_witness :
  fst (get_stats remote_stats strict_int fresh)
  = inr (mkStatsResponse 120 3400 12 40)
  /\ fst (get_stats remote_empty strict_int fresh)
     = inl (ValidationError "StatsResponse").
Proof.
  split.
  - exact (proj2 (X20_get_stats_needs_all_counters remote_stats strict_int fresh
                    (mkResponse 200 (Some stats_body)) stats_body
                    eq_refl eq_refl eq_refl)
             (PInt 120) (PInt 3400) (PInt 12) (PInt 40) 120%Z 3400%Z 12%Z 40%Z
             eq_refl eq_refl eq_refl eq_refl eq_refl eq_refl eq_refl eq_refl).
  - exact (proj1 (X20_get_stats_needs_all_counters remote_empty strict_int fresh
                    (mkResponse 200 (Some (PDict []))) (PDict [])
                    eq_refl eq_refl eq_refl)
             "total_sources" (or_intror (or_intror (or_introl eq_refl)))
             eq_refl).
Defined.


Lemma X22_witness :
  CalculationResponse_new pyval keep strict_int payload_ok
  = inr (mkCalculationResponse pyval [] [] 0)
  /\ exists kwargs items n,
       payload_ok = PDict kwargs
       /\ dict_lookup kwargs "results" = Some (PList items)
       /\ dict_lookup kwargs "context" = Some (PDict [])
       /\ dict_lookup kwargs "total_count" = Some n
       /\ Forall2 (fun x g => keep x = Some g) items []
       /\ length (@nil pyval) = length items
       /\ strict_int n = Some 0%Z.
Proof.
  assert (V : CalculationResponse_new pyval keep strict_int payload_ok
              = inr (mkCalculationResponse pyval [] [] 0)) by reflexivity.
  split; [exact V | ].
  exact (X22_response_mirrors_payload pyval keep strict_int payload_ok _ V).
Defined.


Lemma X24_witness :
  (length (names 3) <= 50)%nat
  /\ fst (calculate_batch remote_500 pyval keep strict_int (names 3)
            "surface_water" None None fresh)
     = inl (GuidelinelyAPIError (PStr "Internal error") 500).
Proof.
  assert (L : (length (names 3) <= 50)%nat) by (simpl; lia).
  assert (S : (500 <> 200)%Z) by discriminate.
  split; [exact L | ].
  exact (proj1 (X24_batch_remote_fault_is_not_cached remote_500 pyval keep
                  strict_int (names 3) "surface_water" None None fresh
                  (mkResponse 500 (Some (PDict [("detail", PStr "Internal error")])))
                  L eq_refl eq_refl eq_refl S)).
Defined.

Lemma X25_witness :
  let call := calculate_guidelines remote_empty pyval keep strict_int "Aluminum"
                "surface_water" None None None in
  fst (call fresh) = inl (ValidationError "CalculationResponse")
  /\ sent (events_since (snd (call fresh)) (snd (call (snd (call fresh)))))
     = [calculate_request "Aluminum" "surface_water" None None None].
Proof.
  cbv zeta. split; [reflexivity | ].
  exact (proj2 (proj2 (X25_falsy_body_is_fetched_again remote_empty pyval keep
                         strict_int "Aluminum" "surface_water" None None None
                         fresh (mkResponse 200 (Some (PDict []))) (PDict [])
                         eq_refl eq_refl eq_refl eq_refl eq_refl eq_refl
                         eq_refl))).
Defined.
